(** * research-analyser: the analysis route ([src/routes/analysis.py])

    A shallow embedding of the three functions of the route
    ([extract_text_from_file], [analyze_document_with_gemini],
    [analyze_document]) and of the pieces of the Python runtime they lean on
    ([str.strip], [str.endswith], [str.join], [re.search] with the pattern of
    the route, [json.loads]), followed by the properties of the
    specification that are about them. *)

From Stdlib Require Import String Ascii List NArith ZArith Bool Lia.
Import ListNotations.

Set Warnings "-register-all".

Local Open Scope N_scope.
Local Open Scope list_scope.

(** ** Python strings

    A Python [str] is a sequence of Unicode code points. *)

Definition codepoint := N.
Definition str := list codepoint.

(** Literals are written as Rocq strings, which hold the UTF-8 bytes of the
    text; [utf8] turns the bytes back into code points. *)
Fixpoint utf8 (bs : list N) : str :=
  match bs with
  | [] => []
  | b0 :: t0 =>
    if b0 <? 128 then b0 :: utf8 t0
    else
      match t0 with
      | [] => [b0]
      | b1 :: t1 =>
        if b0 <? 224 then ((b0 - 192) * 64 + (b1 - 128)) :: utf8 t1
        else
          match t1 with
          | [] => [b0; b1]
          | b2 :: t2 =>
            if b0 <? 240
            then ((b0 - 224) * 4096 + (b1 - 128) * 64 + (b2 - 128)) :: utf8 t2
            else
              match t2 with
              | [] => [b0; b1; b2]
              | b3 :: t3 =>
                ((b0 - 240) * 262144 + (b1 - 128) * 4096
                 + (b2 - 128) * 64 + (b3 - 128)) :: utf8 t3
              end
          end
      end
  end.

Definition py (s : string) : str :=
  utf8 (map N_of_ascii (list_ascii_of_string s)).

(** The characters the code and the JSON grammar name. *)
Definition TAB : codepoint := 9.
Definition LF : codepoint := 10.
Definition FF : codepoint := 12.
Definition CR : codepoint := 13.
Definition BS : codepoint := 8.
Definition SPACE : codepoint := 32.
Definition DQUOTE : codepoint := 34.
Definition PLUS : codepoint := 43.
Definition COMMA : codepoint := 44.
Definition MINUS : codepoint := 45.
Definition DOT : codepoint := 46.
Definition SLASH : codepoint := 47.
Definition COLON : codepoint := 58.
Definition LBRACKET : codepoint := 91.
Definition BACKSLASH_CHAR : codepoint := 92.
Definition RBRACKET : codepoint := 93.
Definition LBRACE : codepoint := 123.
Definition RBRACE : codepoint := 125.

(** A double-quoted piece of text: the quote character cannot be written
    inside a literal here, so it is spliced in. *)
Definition dq (s : string) : str := DQUOTE :: py s ++ [DQUOTE].

Fixpoint str_eqb (a b : str) : bool :=
  match a, b with
  | [], [] => true
  | x :: a', y :: b' => (x =? y) && str_eqb a' b'
  | _, _ => false
  end.

(** [s.startswith(p)] *)
Fixpoint startswith (s p : str) {struct p} : bool :=
  match p with
  | [] => true
  | y :: p' =>
    match s with
    | [] => false
    | x :: s' => (x =? y) && startswith s' p'
    end
  end.

(** [s.endswith(p)] *)
Definition endswith (s p : str) : bool := startswith (rev s) (rev p).

(** [p in s] *)
Fixpoint contains (s p : str) : bool :=
  startswith s p
  || match s with
     | [] => false
     | _ :: s' => contains s' p
     end.

(** [sep.join(parts)] *)
Fixpoint join (sep : str) (parts : list str) : str :=
  match parts with
  | [] => []
  | [p] => p
  | p :: rest => p ++ sep ++ join sep rest
  end.

(** [c.isspace()]: the code points Python treats as whitespace. *)
Definition isspace (c : codepoint) : bool :=
  ((9 <=? c) && (c <=? 13)) || ((28 <=? c) && (c <=? 32))
  || (c =? 133) || (c =? 160) || (c =? 5760)
  || ((8192 <=? c) && (c <=? 8202))
  || (c =? 8232) || (c =? 8233) || (c =? 8239) || (c =? 8287)
  || (c =? 12288).

Fixpoint lstrip (s : str) : str :=
  match s with
  | [] => []
  | c :: t => if isspace c then lstrip t else s
  end.

Definition rstrip (s : str) : str := rev (lstrip (rev s)).

(** [s.strip()] *)
Definition strip (s : str) : str := rstrip (lstrip s).

(** ** The regular expression of the fallback

    [re.search(r'\{.*\}', s, re.DOTALL)]: the search tries the start
    positions from left to right; at a start position the first character
    has to be an opening brace, then [.*] (any character, newlines too under
    DOTALL) takes as much as it can and gives characters back until a closing
    brace follows. *)

(** [.*\}] at the head of [s]: the longest prefix of [s] that ends with a
    closing brace. *)
Fixpoint dotstar_rbrace (s : str) : option str :=
  match s with
  | [] => None
  | c :: t =>
    match dotstar_rbrace t with
    | Some m => Some (c :: m)
    | None => if c =? RBRACE then Some [c] else None
    end
  end.

(** The text of the match ([json_match.group()]), [None] when nothing
    matches. *)
Fixpoint re_search_braces (s : str) : option str :=
  match s with
  | [] => None
  | c :: t =>
    if c =? LBRACE then
      match dotstar_rbrace t with
      | Some m => Some (c :: m)
      | None => re_search_braces t
      end
    else re_search_braces t
  end.

(** ** Exceptions and results

    What the route raises and catches.  The text of an exception is either a
    literal or a literal followed by the text of the exception that was
    caught (the f-strings [f"...: {e}"] of the route). *)

Inductive exn : Type :=
| Exception (args : message)      (* raise Exception(...) *)
| ValueError (args : message)     (* raise ValueError(...) *)
| JSONDecodeError                 (* raised by json.loads; its text is not modelled *)
| RecursionError                  (* raised by json.loads on nesting past what the interpreter allows *)
| IntegerValueError               (* the plain ValueError of int() on a literal over the digit limit *)
| LibraryError (what : str)       (* raised inside python-docx, PyPDF2 or the provider library *)
with message : Type :=
| Text (s : str)
| TextStr (s : str) (e : exn).    (* [s] followed by [str(e)] *)

(** A call returns a value or raises. *)
Inductive result (A : Type) : Type :=
| Returns (a : A)
| Raises (e : exn).
Arguments Returns {A} a.
Arguments Raises {A} e.

Definition bind {A B : Type} (r : result A) (k : A -> result B) : result B :=
  match r with
  | Returns a => k a
  | Raises e => Raises e
  end.

Notation "x <- r ;; k" := (bind r (fun x => k))
  (at level 61, r at next level, right associativity).

(** [try: body except Exception as e: raise Exception(f"{prefix}{e}")] *)
Definition reraise {A : Type} (prefix : string) (body : result A) : result A :=
  match body with
  | Returns a => Returns a
  | Raises e => Raises (Exception (TextStr (py prefix) e))
  end.

(** ** [json.loads]

    The decoder of Python's [json] module (json/decoder.py and
    json/scanner.py), on a [str].  The values it builds: *)

Inductive constant := NaN | Infinity | NegInfinity.

Inductive json : Type :=
| JNull                                   (* None *)
| JBool (b : bool)                        (* True, False *)
| JInt (n : Z)                            (* int *)
| JFloat (literal : str)                  (* float, kept as the text given to float() *)
| JConstant (c : constant)                (* float('nan'), float('inf'), float('-inf') *)
| JString (s : str)                       (* str *)
| JArray (items : list json)              (* list *)
| JObject (members : list (str * json)).  (* dict, in insertion order *)

(** [d[k] = v] on a dict kept in insertion order. *)
Fixpoint dict_set (d : list (str * json)) (k : str) (v : json)
  : list (str * json) :=
  match d with
  | [] => [(k, v)]
  | (k', v') :: d' =>
    if str_eqb k k' then (k', v) :: d'
    else (k', v') :: dict_set d' k v
  end.

(** [dict(pairs)] *)
Definition dict (pairs : list (str * json)) : list (str * json) :=
  fold_left (fun d kv => dict_set d (fst kv) (snd kv)) pairs [].

(** [k in d] *)
Definition has_key (d : list (str * json)) (k : str) : bool :=
  existsb (fun kv => str_eqb k (fst kv)) d.

(** The two limits of the interpreter the decoder runs into.  They are
    settings of the runtime, not of the route: [max_nesting] is the number
    of arrays and objects that may be open one inside the other where
    [json.loads] is called (what is left of the recursion limit), and
    [int_max_str_digits] is [sys.get_int_max_str_digits()], 4300 unless
    changed, 0 for no limit. *)
Record limits : Type := {
  max_nesting : nat;
  int_max_str_digits : nat
}.

(** The result of a scanning function: a value and the text that follows
    it, a decoding error ([JSONDecodeError]), another exception raised on
    the way ([RecursionError], or the [ValueError] of [int()]), or a budget
    of the model that ran out. *)
Inductive outcome (A : Type) : Type :=
| Parsed (a : A) (rest : str)
| Invalid
| Aborted (e : exn)
| Exhausted.
Arguments Parsed {A} a rest.
Arguments Invalid {A}.
Arguments Aborted {A} e.
Arguments Exhausted {A}.

Definition cons_parsed (c : codepoint) (o : outcome str) : outcome str :=
  match o with
  | Parsed s rest => Parsed (c :: s) rest
  | Invalid => Invalid
  | Aborted e => Aborted e
  | Exhausted => Exhausted
  end.

(** JSON whitespace, [WHITESPACE = re.compile(r'[ \t\n\r]*')]. *)
Definition is_ws (c : codepoint) : bool :=
  (c =? SPACE) || (c =? TAB) || (c =? LF) || (c =? CR).

Fixpoint skip_ws (s : str) : str :=
  match s with
  | [] => []
  | c :: t => if is_ws c then skip_ws t else s
  end.

Definition is_digit (c : codepoint) : bool := (48 <=? c) && (c <=? 57).

Definition hex_value (c : codepoint) : option N :=
  if is_digit c then Some (c - 48)
  else if (65 <=? c) && (c <=? 70) then Some (c - 55)
  else if (97 <=? c) && (c <=? 102) then Some (c - 87)
  else None.

(** [_decode_uXXXX]: the four hexadecimal digits after [\u]. *)
Definition decode_uXXXX (s : str) : option (N * str) :=
  match s with
  | h1 :: h2 :: h3 :: h4 :: rest =>
    match hex_value h1, hex_value h2, hex_value h3, hex_value h4 with
    | Some a, Some b, Some c, Some d =>
      Some (a * 4096 + b * 256 + c * 16 + d, rest)
    | _, _, _, _ => None
    end
  | _ => None
  end.

(** The table [BACKSLASH] of one-letter escapes. *)
Definition backslash (esc : codepoint) : option codepoint :=
  if esc =? DQUOTE then Some DQUOTE
  else if esc =? BACKSLASH_CHAR then Some BACKSLASH_CHAR
  else if esc =? SLASH then Some SLASH
  else if esc =? 98 then Some BS
  else if esc =? 102 then Some FF
  else if esc =? 110 then Some LF
  else if esc =? 114 then Some CR
  else if esc =? 116 then Some TAB
  else None.

(** [py_scanstring] (strict mode), started after the opening quote. *)
Fixpoint scanstring (fuel : nat) (s : str) : outcome str :=
  match fuel with
  | O => Exhausted
  | S fuel =>
    match s with
    | [] => Invalid
    | c :: t =>
      if c =? DQUOTE then Parsed [] t
      else if c =? BACKSLASH_CHAR then
        match t with
        | [] => Invalid
        | esc :: t1 =>
          if esc =? 117 then
            match decode_uXXXX t1 with
            | None => Invalid
            | Some (uni, t2) =>
              if (55296 <=? uni) && (uni <=? 56319)
                 && startswith t2 [BACKSLASH_CHAR; 117]
              then
                match decode_uXXXX (skipn 2 t2) with
                | None => Invalid
                | Some (uni2, t3) =>
                  if (56320 <=? uni2) && (uni2 <=? 57343)
                  then cons_parsed
                         (65536 + ((uni - 55296) * 1024 + (uni2 - 56320)))
                         (scanstring fuel t3)
                  else cons_parsed uni (scanstring fuel t2)
                end
              else cons_parsed uni (scanstring fuel t2)
            end
          else
            match backslash esc with
            | Some ch => cons_parsed ch (scanstring fuel t1)
            | None => Invalid
            end
        end
      else if c <? 32 then Invalid
      else cons_parsed c (scanstring fuel t)
    end
  end.

(** The longest run of ASCII digits at the head of [s], and what follows. *)
Fixpoint span_digits (s : str) : str * str :=
  match s with
  | [] => ([], [])
  | c :: t =>
    if is_digit c then let '(ds, rest) := span_digits t in (c :: ds, rest)
    else ([], s)
  end.

(** [NUMBER_RE], matched at the head of [s].  Its three groups are the
    integer part (an optional minus sign, then a lone zero or a digit from 1
    to 9 followed by digits), the fraction (a dot and at least one digit) and
    the exponent (e or E, an optional sign, at least one digit); the last two
    are optional and come back empty when absent, with the rest of the
    text. *)
Definition match_integer (s : str) : option (str * str) :=
  match s with
  | [] => None
  | c :: t =>
    if c =? 48 then Some ([c], t)
    else if is_digit c then
      let '(ds, rest) := span_digits t in Some (c :: ds, rest)
    else None
  end.

Definition match_frac (s : str) : str * str :=
  match s with
  | c :: t =>
    if c =? DOT then
      match span_digits t with
      | ([], _) => ([], s)
      | (ds, rest) => (c :: ds, rest)
      end
    else ([], s)
  | [] => ([], s)
  end.

Definition match_exp (s : str) : str * str :=
  match s with
  | c :: t =>
    if (c =? 101) || (c =? 69) then
      match t with
      | sg :: t' =>
        if (sg =? MINUS) || (sg =? PLUS) then
          match span_digits t' with
          | ([], _) => ([], s)
          | (ds, rest) => (c :: sg :: ds, rest)
          end
        else
          match span_digits t with
          | ([], _) => ([], s)
          | (ds, rest) => (c :: ds, rest)
          end
      | [] => ([], s)
      end
    else ([], s)
  | [] => ([], s)
  end.

(** The first group: the integer part with its optional sign. *)
Definition match_signed_integer (s : str) : option (str * str) :=
  match s with
  | c :: t =>
    if c =? MINUS then
      match match_integer t with
      | Some (ds, rest) => Some (c :: ds, rest)
      | None => None
      end
    else match_integer s
  | [] => None
  end.

Definition match_number (s : str) : option (str * str * str * str) :=
  match match_signed_integer s with
  | None => None
  | Some (integer, r1) =>
    let '(frac, r2) := match_frac r1 in
    let '(exp, r3) := match_exp r2 in
    Some (integer, frac, exp, r3)
  end.

(** [int(integer)] on the text of an integer part ([PyLong_FromString] in
    base 10).  Python integers are unbounded, but the conversion raises a
    [ValueError] on a text with more digits (the sign apart) than
    [sys.get_int_max_str_digits()], unless that is 0; texts of 640 digits
    or fewer are never checked against the limit. *)
Definition over_digit_limit (lim : limits) (integer : str) : bool :=
  let digits :=
    match integer with
    | c :: ds => if c =? MINUS then length ds else length integer
    | [] => O
    end in
  Nat.ltb 640 digits
  && negb (Nat.eqb (int_max_str_digits lim) 0)
  && Nat.ltb (int_max_str_digits lim) digits.

Definition digits_value (ds : str) : Z :=
  fold_left (fun acc c => (acc * 10 + (Z.of_N c - 48))%Z) ds 0%Z.

Definition parse_int (integer : str) : Z :=
  match integer with
  | c :: ds => if c =? MINUS then (- digits_value ds)%Z
               else digits_value integer
  | [] => 0%Z
  end.

Definition is_empty (s : str) : bool :=
  match s with [] => true | _ => false end.

(** The pieces of [_scan_once] that read no nested value: the three
    literals, the numbers and the three constants. *)
Definition scan_atom (lim : limits) (s : str) : outcome json :=
  if startswith s (py "null") then Parsed JNull (skipn 4 s)
  else if startswith s (py "true") then Parsed (JBool true) (skipn 4 s)
  else if startswith s (py "false") then Parsed (JBool false) (skipn 5 s)
  else
    match match_number s with
    | Some (integer, frac, exp, rest) =>
      if is_empty frac && is_empty exp
      then if over_digit_limit lim integer
           then Aborted IntegerValueError
           else Parsed (JInt (parse_int integer)) rest
      else Parsed (JFloat (integer ++ frac ++ exp)) rest
    | None =>
      if startswith s (py "NaN") then Parsed (JConstant NaN) (skipn 3 s)
      else if startswith s (py "Infinity")
      then Parsed (JConstant Infinity) (skipn 8 s)
      else if startswith s (py "-Infinity")
      then Parsed (JConstant NegInfinity) (skipn 9 s)
      else Invalid
    end.

(** [_scan_once], [JSONObject] and [JSONArray].  [scan_once] reads one value
    at the head of the text; [object_members] is the loop of [JSONObject],
    entered after the opening quote of a key with the pairs read so far;
    [array_items] is the loop of [JSONArray], entered at the start of an
    item.  [depth] is the number of objects and arrays that may still be
    opened inside one another: opening one when none is left raises
    [RecursionError].  Every call takes one unit of [fuel]; a string is
    scanned with a budget of its own, one more than the length of the
    text. *)
Fixpoint scan_once (lim : limits) (fuel depth : nat) (s : str)
  : outcome json :=
  match fuel with
  | O => Exhausted
  | S fuel =>
    match s with
    | [] => Invalid
    | c :: t =>
      if c =? DQUOTE then
        match scanstring (S (length t)) t with
        | Parsed x rest => Parsed (JString x) rest
        | Invalid => Invalid
        | Aborted e => Aborted e
        | Exhausted => Exhausted
        end
      else if c =? LBRACE then
        match depth with
        | O => Aborted RecursionError
        | S depth =>
          match skip_ws t with
          | c1 :: t1 =>
            if c1 =? RBRACE then Parsed (JObject []) t1
            else if c1 =? DQUOTE then object_members lim fuel depth [] t1
            else Invalid
          | [] => Invalid
          end
        end
      else if c =? LBRACKET then
        match depth with
        | O => Aborted RecursionError
        | S depth =>
          match skip_ws t with
          | c1 :: t1 =>
            if c1 =? RBRACKET then Parsed (JArray []) t1
            else array_items lim fuel depth [] (c1 :: t1)
          | [] => Invalid
          end
        end
      else scan_atom lim s
    end
  end
with object_members (lim : limits) (fuel depth : nat)
    (pairs : list (str * json)) (s : str) : outcome json :=
  match fuel with
  | O => Exhausted
  | S fuel =>
    match scanstring (S (length s)) s with
    | Parsed key r0 =>
      match skip_ws r0 with
      | c1 :: r1 =>
        if c1 =? COLON then
          match scan_once lim fuel depth (skip_ws r1) with
          | Parsed value r2 =>
            let pairs' := pairs ++ [(key, value)] in
            match skip_ws r2 with
            | c3 :: r3 =>
              if c3 =? RBRACE then Parsed (JObject (dict pairs')) r3
              else if c3 =? COMMA then
                match skip_ws r3 with
                | c4 :: r4 =>
                  if c4 =? DQUOTE then object_members lim fuel depth pairs' r4
                  else Invalid
                | [] => Invalid
                end
              else Invalid
            | [] => Invalid
            end
          | Invalid => Invalid
          | Aborted e => Aborted e
          | Exhausted => Exhausted
          end
        else Invalid
      | [] => Invalid
      end
    | Invalid => Invalid
    | Aborted e => Aborted e
    | Exhausted => Exhausted
    end
  end
with array_items (lim : limits) (fuel depth : nat) (values : list json)
    (s : str) : outcome json :=
  match fuel with
  | O => Exhausted
  | S fuel =>
    match scan_once lim fuel depth s with
    | Parsed value r0 =>
      let values' := values ++ [value] in
      match skip_ws r0 with
      | c1 :: r1 =>
        if c1 =? RBRACKET then Parsed (JArray values') r1
        else if c1 =? COMMA
        then array_items lim fuel depth values' (skip_ws r1)
        else Invalid
      | [] => Invalid
      end
    | Invalid => Invalid
    | Aborted e => Aborted e
    | Exhausted => Exhausted
    end
  end.

(** [json.loads(s)] under the limits [lim]: a leading byte-order mark is
    refused, whitespace is allowed around the value, anything else after it
    is "Extra data".  It returns the value, raises [JSONDecodeError] on a
    text that is not JSON, or raises what the limits make it raise on the
    way: [RecursionError] and the [ValueError] of [int()], neither of which
    is a [JSONDecodeError].  The budget of the model is never used up
    ([scan_total] below). *)
Definition json_loads (lim : limits) (s : str) : result json :=
  if startswith s [65279] then Raises JSONDecodeError
  else
    match scan_once lim (S (2 * length s)) (max_nesting lim) (skip_ws s) with
    | Parsed v rest =>
      match skip_ws rest with
      | [] => Returns v
      | _ :: _ => Raises JSONDecodeError
      end
    | Invalid => Raises JSONDecodeError
    | Aborted e => Raises e
    | Exhausted => Raises JSONDecodeError
    end.

(** ** The document libraries

    What the route sees of an upload (werkzeug's [FileStorage]), of a parsed
    .docx ([docx.Document]) and of a PDF ([PyPDF2.PdfReader]). *)

Record FileStorage : Type := {
  filename : str;
  stream : list N                  (* the bytes of the upload *)
}.

Record Paragraph : Type := { text : str }.
Record Docx : Type := { paragraphs : list Paragraph }.

(** A page carries what [page.extract_text()] does on it. *)
Record Page : Type := { extract_text : result str }.
Record Reader : Type := { pages : list Page }.

(** What goes to the provider in one [model.generate_content(prompt)]. *)
Record GenerateRequest : Type := {
  sent_api_key : str;
  sent_model : str;
  sent_prompt : str
}.

(** ** The prompt *)

(** Lines 68 to 72: the opening and the terms to extract. *)
Definition prompt_terms : list str :=
  [ [];
    py "        Analyze the following research document and extract the following information in JSON format:";
    [];
    py "        1. Document-specific terms and their definitions. Prioritize the following terms: "
      ++ dq "Ui" ++ py ", " ++ dq "IDi" ++ py ", " ++ dq "Identity of Ui" ++ py ", "
      ++ dq "SCi" ++ py ", " ++ dq "User’s Smart card" ++ py ", " ++ dq "PWi"
      ++ py ", " ++ dq "Password of Ui" ++ py ", " ++ dq "Sj" ++ py ", "
      ++ dq "The jth Sensor Node" ++ py ", " ++ dq "SIDj" ++ py ", "
      ++ dq "Identity of the Sensor Sj" ++ py ", " ++ dq "GWN" ++ py ", "
      ++ dq "Gateway Node" ++ py ", " ++ dq "SK" ++ py ", " ++ dq "Session Key"
      ++ py ", " ++ dq "Open channel" ++ py ", " ++ dq "Secure channel" ++ py ", "
      ++ dq "h(.)" ++ py ", " ++ dq "One way hash Function" ++ py ", " ++ dq "∥"
      ++ py ", " ++ dq "Message concatenation" ++ py ", " ++ dq "⊕" ++ py ", "
      ++ dq "XOR operation."
      ++ py ". Also, identify any other terms explicitly defined within the document. Exclude common abbreviations that are not defined in the document.";
    [] ].

(** Lines 73 to 76: the expressions to extract. *)
Definition prompt_expressions : list str :=
  [ py "        2. Complex expressions (logical, hashing, cryptographic, etc.). For each expression, extract its name, type, communicational cost (in bits), and computational cost (in milliseconds).";
    py "           - **Crucially, populate the `expressions` array with ALL identified expressions and their associated costs.**";
    py "           - **Exclude Assignment Operations:** Do not include simple assignment operations (e.g., `X = xP`, `K1 = xQ`, `K2 = kX`, `Y = yP`, `Q = kP`) in this list. Focus on logical, hashing, cryptographic, or other complex operations.";
    py "           - **Expression Type:** Accurately categorize the `type` as 'logical' (e.g., XOR operations, boolean logic), 'hashing' (e.g., hash functions), 'cryptographic' (e.g., encryption, scalar multiplication, addition), or 'other' based on the expression's nature." ].

(** Lines 77 to 79: the communicational cost, stated by the document or a default. *)
Definition prompt_communicational_cost : list str :=
  [ py "           - **Communicational Cost:**";
    py "             - If the document explicitly states a communicational cost (e.g., "
      ++ dq "requires X bits" ++ py "), use that value.";
    py "             - If no explicit cost is mentioned in the document, use a default of "
      ++ dq "8 bits" ++ py "." ].

(** Lines 80 to 93: the computational cost in three priorities, with the predefined operations. *)
Definition prompt_computational_cost : list str :=
  [ py "           - **Computational Cost:**";
    py "             - **Priority 1: Document Explicit Costs:** If the document explicitly states a computational cost for an operation (e.g., "
      ++ dq "Hash Function costs 0.0023 ms" ++ py "), use that value.";
    py "             - **Priority 2: Predefined Costs:** If no explicit cost is found in the document, check if the expression matches one of the following predefined operations and use its associated cost:";
    py "               - Hash Function (TH): 0.0023ms";
    py "               - Elliptic Curve Scalar Multiplication (TM): 2.226ms";
    py "               - Elliptic Curve Addition (TA): 0.0288ms";
    py "               - Symmetric Encryption (TS): 0.0046ms";
    py "               - Modular Exponentiation (TE): 3.85ms";
    py "               - Modular Multiplication (TMM): 0.0147ms";
    py "               - Biometric Key Processing (TBio): 63.075ms";
    py "               - Extracting a Random Number (TExR): 2.011ms";
    py "               - Vector Addition Modulo (Tam): 2ms";
    py "               - Matrix Multiplication Modulo (Tmm): 4ms";
    py "             - **Priority 3: Default Cost:** If neither an explicit document cost nor a matching predefined operation is found, use a default computational cost of "
      ++ dq "1ms" ++ py "." ].

(** Lines 94 to 101: the cost cues, the overall costs and the head of the document field. *)
Definition prompt_overall : list str :=
  [ py "           - Look for explicit mentions of costs using keywords like "
      ++ dq "cost" ++ py ", " ++ dq "takes" ++ py ", " ++ dq "requires" ++ py ", "
      ++ dq "ms" ++ py ", " ++ dq "bits" ++ py ".";
    py "           - Extract the exact cost value and unit as found in the text.";
    py "        3. Analyze the overall project proposal to determine its total communicational cost and total computational cost. This should be a high-level assessment of the proposal's resource requirements, synthesizing information from the document.";
    py "           - If the document provides a summary of total costs (e.g., "
      ++ dq "The total communication cost is X bits" ++ py ", "
      ++ dq "The overall computation will take Y ms" ++ py "), use those values.";
    py "           - If no explicit summary is found, provide a conservative estimate based on the most significant components identified in section 2, clearly stating that it's an estimate.";
    [];
    py "        Document text:";
    py "        " ].

(** Lines 101 to 126: what follows the document, the JSON format asked for. *)
Definition prompt_format : list str :=
  [ [];
    [];
    py "        Please respond with a valid JSON object in the following format:";
    py "        {";
    py "            " ++ dq "terms" ++ py ": [";
    py "                {";
    py "                    " ++ dq "term" ++ py ": " ++ dq "term name"
      ++ py ",";
    py "                    " ++ dq "description" ++ py ": "
      ++ dq "term description";
    py "                }";
    py "            ],";
    py "            " ++ dq "expressions" ++ py ": [";
    py "                {";
    py "                    " ++ dq "expression" ++ py ": "
      ++ dq "expression name" ++ py ",";
    py "                    " ++ dq "type" ++ py ": "
      ++ dq "logical/hashing/cryptographic/other" ++ py ",";
    py "                    " ++ dq "communicational_cost" ++ py ": "
      ++ dq "cost in bits" ++ py ", ";
    py "                    " ++ dq "computational_cost" ++ py ": "
      ++ dq "cost in ms" ++ py " ";
    py "                }";
    py "            ],";
    py "            " ++ dq "overall_costs" ++ py ": {";
    py "                " ++ dq "total_communicational_cost" ++ py ": "
      ++ dq "total bits" ++ py ", ";
    py "                " ++ dq "total_computational_cost" ++ py ": "
      ++ dq "total ms" ++ py " ";
    py "            }";
    py "        }";
    [];
    py "        Ensure the response is valid JSON only, no additional text.";
    py "        " ].

(** The prompt of [analyze_document_with_gemini]: the f-string of lines 68
    to 126, whose only field is [document_text]. *)
Definition prompt (document_text : str) : str :=
  join [LF] (prompt_terms ++ prompt_expressions
             ++ prompt_communicational_cost ++ prompt_computational_cost
             ++ prompt_overall)
  ++ document_text
  ++ join [LF] prompt_format.

(** ** The response resolver

    Lines 132 to 146 of [analyze_document_with_gemini]: the text of the
    response is stripped and parsed; when that raises [JSONDecodeError] the
    span of the regular expression is parsed instead; when nothing matches a
    [ValueError] is raised.  Line 138 catches [JSONDecodeError] only: any
    other exception of the first [json.loads], and every exception of the
    second, leaves the resolver as it is. *)
Definition resolve_response (lim : limits) (text : str) : result json :=
  let response_text := strip text in
  match json_loads lim response_text with
  | Returns result => Returns result
  | Raises JSONDecodeError =>
    match re_search_braces response_text with
    | Some json_str =>
      result <- json_loads lim json_str ;;
      Returns result
    | None =>
      Raises (ValueError
                (Text (py "Could not extract valid JSON from Gemini response")))
    end
  | Raises e => Raises e
  end.

(** The request of [analyze_document_with_gemini]: the model of line 65 is
    asked, under the configured key, with the prompt. *)
Definition gemini_call (api_key document_text : str) : GenerateRequest :=
  {| sent_api_key := api_key;
     sent_model := py "gemini-2.5-flash";
     sent_prompt := prompt document_text |}.

Definition allowed_extensions : list str :=
  [py ".doc"; py ".docx"; py ".pdf"].

(** The body of a Flask response, [jsonify(...)], and the response. *)
Inductive body : Type :=
| ErrorJson (error : message)     (* jsonify({'error': ...}) *)
| ResultJson (result : json).     (* jsonify(result) *)

Definition response : Type := (body * N)%type.

(** What a POST to /analyze carries: [request.files.get('document')] and
    [request.form.get('api_key')]. *)
Record request : Type := {
  files_document : option FileStorage;
  form_api_key : option str
}.

Section Route.

(** The libraries the route calls, outside of the repository. *)

(** [str.lower]. *)
Variable lower : str -> str.
(** [DocxDocument(file_obj)] and [PdfReader(file_obj)]. *)
Variable DocxDocument : FileStorage -> result Docx.
Variable PdfReader : FileStorage -> result Reader.
(** Whether [import google.generativeai] succeeds, and the text of the
    response of [GenerativeModel(model).generate_content(prompt)] under the
    configured key ([response.text]), or what is raised on the way. *)
Variable genai_installed : bool.
Variable generate_content : GenerateRequest -> result str.
(** The limits of the interpreter the route runs in. *)
Variable interpreter : limits.

(** [[page.extract_text() for page in pages if page.extract_text()]] *)
Fixpoint page_texts (pages : list Page) : result (list str) :=
  match pages with
  | [] => Returns []
  | page :: rest =>
    cond <- extract_text page ;;
    if negb (is_empty cond) then
      t <- extract_text page ;;
      ts <- page_texts rest ;;
      Returns (t :: ts)
    else page_texts rest
  end.

Definition extract_text_from_file (file_obj : FileStorage) : result str :=
  let filename := filename file_obj in
  if endswith (lower filename) (py ".docx") then
    reraise "Error extracting text from .docx file: "
      (doc <- DocxDocument file_obj ;;
       Returns (join [LF] (map text (paragraphs doc))))
  else if endswith (lower filename) (py ".pdf") then
    reraise "Error extracting text from .pdf file: "
      (reader <- PdfReader file_obj ;;
       texts <- page_texts (pages reader) ;;
       Returns (join [LF] texts))
  else if endswith (lower filename) (py ".doc") then
    Raises (Exception (Text (py
      "Text extraction from .doc files is not directly supported. Please convert to .docx or .pdf.")))
  else
    Raises (Exception (Text (py "Unsupported file type for text extraction."))).

(** [configure_gemini]: the key the later calls are made under. *)
Definition configure_gemini (api_key : str) : result str :=
  if genai_installed then Returns api_key
  else Raises (Exception (Text (py
    "Google Generative AI library not available. Please install google-generativeai package."))).

(** [analyze_document_with_gemini], with the requests made to the provider
    next to what the function returns or raises. *)
Definition analyze_document_with_gemini (document_text api_key : str)
  : list GenerateRequest * result json :=
  match configure_gemini api_key with
  | Raises e =>
    ([], reraise "Error analyzing document with Gemini: " (Raises e))
  | Returns genai =>
    let call := gemini_call genai document_text in
    ([call],
     reraise "Error analyzing document with Gemini: "
       (response_text <- generate_content call ;;
        resolve_response interpreter response_text))
  end.

(** [analyze_document], the handler of POST /analyze. *)
Definition analyze_document (req : request) : response :=
  match files_document req with
  | None => (ErrorJson (Text (py "No document file provided")), 400)
  | Some file =>
    match form_api_key req with
    | None => (ErrorJson (Text (py "No API key provided")), 400)
    | Some api_key =>
      if is_empty (filename file) then
        (ErrorJson (Text (py "No file selected")), 400)
      else if negb (existsb (endswith (lower (filename file)))
                            allowed_extensions) then
        (ErrorJson (Text (py "Unsupported file type. Only "
                          ++ join (py ", ") allowed_extensions
                          ++ py " files are allowed.")), 400)
      else
        match extract_text_from_file file with
        | Raises e => (ErrorJson (TextStr [] e), 500)
        | Returns document_text =>
          if is_empty (strip document_text) then
            (ErrorJson (Text (py "Document is empty or could not be read")),
             400)
          else
            match snd (analyze_document_with_gemini document_text api_key)
            with
            | Raises e => (ErrorJson (TextStr [] e), 500)
            | Returns result => (ResultJson result, 200)
            end
        end
    end
  end.

End Route.

(** ** Notions the properties are stated with *)

(** Limits for the examples: the digit limit a Python 3.11 starts with, and
    room for a hundred arrays and objects inside one another. *)
Definition example_limits : limits :=
  {| max_nesting := 100; int_max_str_digits := 4300 |}.

(** [isinstance(e, json.JSONDecodeError)], what line 138 catches. *)
Definition is_decode_error (e : exn) : bool :=
  match e with
  | JSONDecodeError => true
  | _ => false
  end.

(** [str.lower] on ASCII text, for the examples. *)
Definition lower_ascii (s : str) : str :=
  map (fun c => if (65 <=? c) && (c <=? 90) then c + 32 else c) s.

(** A text that starts with a character no number continues into: JSON
    whitespace, a comma, a closing brace or a closing bracket. *)
Definition delimited (r : str) : bool :=
  match r with
  | c :: _ => is_ws c || (c =? COMMA) || (c =? RBRACE) || (c =? RBRACKET)
  | [] => false
  end.

(** The first character of a string, an object or an array. *)
Definition opens_structure (s : str) : bool :=
  match s with
  | c :: _ => (c =? DQUOTE) || (c =? LBRACE) || (c =? LBRACKET)
  | [] => false
  end.

(** The two ways the resolver gets a value out of a response: the stripped
    text decodes, or it raises [JSONDecodeError] and the span of the regular
    expression decodes. *)
Definition recovered (lim : limits) (text : str) (v : json) : Prop :=
  json_loads lim (strip text) = Returns v
  \/ (json_loads lim (strip text) = Raises JSONDecodeError
      /\ exists json_str,
           re_search_braces (strip text) = Some json_str
           /\ json_loads lim json_str = Returns v).

Definition required_keys : list str :=
  [py "terms"; py "expressions"; py "overall_costs"].

(** A value that is not a dict with the three keys of the result. *)
Definition lacks_required_key (v : json) : bool :=
  match v with
  | JObject d => negb (forallb (has_key d) required_keys)
  | _ => true
  end.

(** The response of section 8.6 of the specification and the value it
    holds. *)
Definition example_response : str :=
  py "Here is the result:" ++ [LF]
  ++ py "{" ++ dq "terms" ++ py ":[]," ++ dq "expressions" ++ py ":[],"
  ++ dq "overall_costs" ++ py ":{" ++ dq "total_communicational_cost"
  ++ py ":" ++ dq "0 bits" ++ py "," ++ dq "total_computational_cost"
  ++ py ":" ++ dq "0ms" ++ py "}}" ++ [LF]
  ++ py "Thanks!".

Definition example_result : json :=
  JObject
    [ (py "terms", JArray []);
      (py "expressions", JArray []);
      (py "overall_costs",
       JObject [ (py "total_communicational_cost", JString (py "0 bits"));
                 (py "total_computational_cost", JString (py "0ms")) ]) ].

(** The pieces of a text, to look for the objects it holds. *)
Fixpoint prefixes (s : str) : list str :=
  match s with
  | [] => []
  | c :: t => [c] :: map (cons c) (prefixes t)
  end.

Fixpoint substrings (s : str) : list str :=
  match s with
  | [] => []
  | _ :: t => prefixes s ++ substrings t
  end.

Definition decodes_to_object (s : str) : bool :=
  match json_loads example_limits s with
  | Returns (JObject _) => negb (is_ws (hd 0 s)) && negb (is_ws (last s 0))
  | _ => false
  end.

(** The cost policy as the source words it, lines 77 to 93 of the file,
    written out on its own: what the communicational cost of an expression
    is (the value the document states, else "8 bits"), and what its
    computational cost is, in three priorities (the value the document
    states, else the value of one of ten predefined operations, else
    "1ms"). *)
Definition cost_resolution_policy : str :=
  py "           - **Communicational Cost:**" ++ [LF]
  ++ py "             - If the document explicitly states a communicational cost (e.g., " ++ dq "requires X bits" ++ py "), use that value." ++ [LF]
  ++ py "             - If no explicit cost is mentioned in the document, use a default of " ++ dq "8 bits" ++ py "." ++ [LF]
  ++ py "           - **Computational Cost:**" ++ [LF]
  ++ py "             - **Priority 1: Document Explicit Costs:** If the document explicitly states a computational cost for an operation (e.g., " ++ dq "Hash Function costs 0.0023 ms" ++ py "), use that value." ++ [LF]
  ++ py "             - **Priority 2: Predefined Costs:** If no explicit cost is found in the document, check if the expression matches one of the following predefined operations and use its associated cost:" ++ [LF]
  ++ py "               - Hash Function (TH): 0.0023ms" ++ [LF]
  ++ py "               - Elliptic Curve Scalar Multiplication (TM): 2.226ms" ++ [LF]
  ++ py "               - Elliptic Curve Addition (TA): 0.0288ms" ++ [LF]
  ++ py "               - Symmetric Encryption (TS): 0.0046ms" ++ [LF]
  ++ py "               - Modular Exponentiation (TE): 3.85ms" ++ [LF]
  ++ py "               - Modular Multiplication (TMM): 0.0147ms" ++ [LF]
  ++ py "               - Biometric Key Processing (TBio): 63.075ms" ++ [LF]
  ++ py "               - Extracting a Random Number (TExR): 2.011ms" ++ [LF]
  ++ py "               - Vector Addition Modulo (Tam): 2ms" ++ [LF]
  ++ py "               - Matrix Multiplication Modulo (Tmm): 4ms" ++ [LF]
  ++ py "             - **Priority 3: Default Cost:** If neither an explicit document cost nor a matching predefined operation is found, use a default computational cost of " ++ dq "1ms" ++ py ".".

(** A text of whitespace only, the empty text included: [not s.strip()]. *)
Definition blank (s : str) : bool := forallb isspace s.

(** The characters a JSON text can start with: JSON whitespace, a quote, a
    brace, a bracket, a digit, a minus sign and the first letters of [null],
    [true], [false], [NaN] and [Infinity]. *)
Definition begins_json (c : codepoint) : bool :=
  is_ws c || (c =? DQUOTE) || (c =? LBRACE) || (c =? LBRACKET)
  || is_digit c || (c =? MINUS)
  || (c =? 110) || (c =? 116) || (c =? 102) || (c =? 78) || (c =? 73).

(** * Properties *)

Ltac break_hyp H :=
  match type of H with
  | context [match ?x with _ => _ end] => destruct x eqn:?; try discriminate H
  | context [if ?x then _ else _] => destruct x eqn:?; try discriminate H
  end.

Ltac list_norm := repeat (progress (cbn [app]; rewrite <- ?app_assoc)).

(** ** The model on small inputs *)

Example strip_example :
  strip ([LF; SPACE] ++ py "a b" ++ [TAB; 160; CR]) = py "a b".
Proof. reflexivity. Qed.

Example endswith_example :
  endswith (lower_ascii (py "Thesis.DocX")) (py ".docx") = true
  /\ endswith (lower_ascii (py "Thesis.DocX")) (py ".doc") = false.
Proof. split; reflexivity. Qed.

Example re_search_braces_example :
  re_search_braces (py "a {b} c } d { e") = Some (py "{b} c }")
  /\ re_search_braces (py "a } b { c") = None.
Proof. split; reflexivity. Qed.

Example json_loads_values :
  json_loads example_limits
    (py " [1, -0, 2.5e-3, true, null, NaN, [], {}] ")
  = Returns (JArray [JInt 1; JInt 0; JFloat (py "2.5e-3"); JBool true; JNull;
                     JConstant NaN; JArray []; JObject []]).
Proof. vm_compute. reflexivity. Qed.

Example json_loads_object :
  json_loads example_limits
    (py "{" ++ dq "a" ++ py ": 1, " ++ dq "b\u00e9\n" ++ py ": "
     ++ dq "x" ++ py ", " ++ dq "a" ++ py ": 2}")
  = Returns (JObject [(py "a", JInt 2);
                      (py "b" ++ [233; LF], JString (py "x"))]).
Proof. vm_compute. reflexivity. Qed.

Example json_loads_rejects :
  map (json_loads example_limits)
      [ []; py "[1,]"; py "{" ++ dq "a" ++ py ":1,}"; py "01"; py "1.";
        py "{} {}"; py "{a: 1}"; DQUOTE :: TAB :: [DQUOTE]; py "nul";
        65279 :: py "{}" ]
  = repeat (Raises JSONDecodeError) 10.
Proof. vm_compute. reflexivity. Qed.

(** The two limits: a hundred arrays one inside the other decode and one
    more raises [RecursionError], whatever follows; an integer of 700
    digits decodes and one of 4301 digits raises the [ValueError] of
    [int()], with or without a sign, where a float of that length decodes;
    neither exception is a decoding error. *)
Example json_loads_limits :
  json_loads example_limits (repeat LBRACKET 100 ++ repeat RBRACKET 100)
  = Returns (Nat.iter 99 (fun v => JArray [v]) (JArray []))
  /\ json_loads example_limits (repeat LBRACKET 101 ++ repeat RBRACKET 101)
     = Raises RecursionError
  /\ json_loads example_limits (repeat LBRACKET 101) = Raises RecursionError
  /\ json_loads example_limits (repeat LBRACKET 100) = Raises JSONDecodeError
  /\ is_decode_error RecursionError = false
  /\ match json_loads example_limits (repeat 49 700) with
     | Returns (JInt _) => True
     | _ => False
     end
  /\ json_loads example_limits (repeat 49 4301) = Raises IntegerValueError
  /\ json_loads example_limits (MINUS :: repeat 49 4301)
     = Raises IntegerValueError
  /\ is_decode_error IntegerValueError = false
  /\ json_loads example_limits (repeat 49 4301 ++ py ".5")
     = Returns (JFloat (repeat 49 4301 ++ py ".5")).
Proof. vm_compute. repeat split; reflexivity. Qed.
(** ** Strings *)

Lemma lstrip_incl (c : codepoint) (s : str) : In c (lstrip s) -> In c s.
Proof.
  induction s as [|x s IH]; simpl; [tauto|].
  destruct (isspace x); simpl; tauto.
Qed.

Lemma strip_incl (c : codepoint) (s : str) : In c (strip s) -> In c s.
Proof.
  unfold strip, rstrip. intros H.
  apply lstrip_incl. apply in_rev in H.
  apply lstrip_incl in H. now apply in_rev.
Qed.

Lemma startswith_app (s p t : str) :
  startswith s p = true -> startswith (s ++ t) p = true.
Proof.
  revert s. induction p as [|y p IH]; intros [|x s]; simpl; try easy.
  intros H. apply andb_true_iff in H as [-> H]. now apply IH.
Qed.

Lemma startswith_length (s p : str) :
  startswith s p = true -> (length p <= length s)%nat.
Proof.
  revert s. induction p as [|y p IH]; intros [|x s]; simpl; try easy; try lia.
  intros H. apply andb_true_iff in H as [_ H]. apply IH in H. lia.
Qed.

Lemma skipn_app_le {A : Type} (n : nat) (s t : list A) :
  (n <= length s)%nat -> skipn n (s ++ t) = skipn n s ++ t.
Proof.
  revert s. induction n as [|n IH]; intros [|x s]; simpl; try easy; try lia.
  intros H. apply IH. lia.
Qed.

(** The last occurrence of a character that occurs. *)
Lemma last_occurrence (c : codepoint) (s : str) :
  In c s -> exists a b, s = a ++ c :: b /\ ~ In c b.
Proof.
  induction s as [|x s IH]; simpl; [tauto|].
  intros H. destruct (in_dec N.eq_dec c s) as [Hin|Hout].
  - destruct (IH Hin) as (a & b & -> & Hb). now exists (x :: a), b.
  - destruct H as [->|H]; [|tauto]. now exists [], s.
Qed.

(** ** The regular expression: from the first opening brace to the last
    closing brace *)

Lemma dotstar_rbrace_none (s : str) :
  ~ In RBRACE s -> dotstar_rbrace s = None.
Proof.
  induction s as [|x s IH]; simpl; [easy|].
  intros H. rewrite IH by tauto.
  destruct (N.eqb_spec x RBRACE); [subst; tauto | reflexivity].
Qed.

Lemma dotstar_rbrace_last (body post : str) :
  ~ In RBRACE post ->
  dotstar_rbrace (body ++ RBRACE :: post) = Some (body ++ [RBRACE]).
Proof.
  intros H. induction body as [|x body IH]; simpl.
  - now rewrite dotstar_rbrace_none.
  - now rewrite IH.
Qed.

Lemma dotstar_rbrace_some (s m : str) :
  dotstar_rbrace s = Some m ->
  exists body post,
    s = body ++ RBRACE :: post /\ m = body ++ [RBRACE] /\ ~ In RBRACE post.
Proof.
  revert m. induction s as [|x s IH]; simpl; [easy|]. intros m.
  destruct (dotstar_rbrace s) as [m'|] eqn:E.
  - intros [= <-]. destruct (IH _ eq_refl) as (body & post & -> & -> & H).
    now exists (x :: body), post.
  - destruct (N.eqb_spec x RBRACE) as [->|]; [|easy]. intros [= <-].
    exists [], s. repeat split. intros Hin.
    destruct (last_occurrence _ _ Hin) as (a & b & -> & Hb).
    now rewrite dotstar_rbrace_last in E.
Qed.

Lemma re_search_braces_none (s : str) :
  ~ In LBRACE s -> re_search_braces s = None.
Proof.
  induction s as [|x s IH]; simpl; [easy|].
  intros H. destruct (N.eqb_spec x LBRACE); [subst; tauto|]. apply IH. tauto.
Qed.

Lemma re_search_braces_span (pre body post : str) :
  ~ In LBRACE pre -> ~ In RBRACE post ->
  re_search_braces (pre ++ LBRACE :: body ++ RBRACE :: post)
  = Some (LBRACE :: body ++ [RBRACE]).
Proof.
  intros Hpre Hpost. induction pre as [|x pre IH]; simpl.
  - now rewrite dotstar_rbrace_last.
  - simpl in Hpre. destruct (N.eqb_spec x LBRACE); [subst; tauto|].
    apply IH. tauto.
Qed.

Lemma re_search_braces_some (s m : str) :
  re_search_braces s = Some m ->
  exists pre body post,
    s = pre ++ LBRACE :: body ++ RBRACE :: post
    /\ m = LBRACE :: body ++ [RBRACE]
    /\ ~ In LBRACE pre /\ ~ In RBRACE post.
Proof.
  induction s as [|x s IH]; simpl; [easy|].
  destruct (N.eqb_spec x LBRACE) as [->|Hx].
  - destruct (dotstar_rbrace s) as [m'|] eqn:E.
    + intros [= <-].
      destruct (dotstar_rbrace_some _ _ E) as (body & post & -> & -> & H).
      exists [], body, post. simpl. tauto.
    + intros H. destruct (IH H) as (pre & body & post & -> & -> & H1 & H2).
      exists (LBRACE :: pre), body, post. exfalso.
      rewrite app_comm_cons, app_assoc in E.
      now rewrite dotstar_rbrace_last in E.
  - intros H. destruct (IH H) as (pre & body & post & -> & -> & H1 & H2).
    exists (x :: pre), body, post. simpl. intuition congruence.
Qed.

(** ** The JSON decoder: budget and text that follows a value

    Two facts carry the decoder from a text to a longer one: a value read
    within a budget is read within any larger one, and a value that ends at a
    delimiter is read the same way whatever is appended to the text. *)

Local Arguments N.eqb : simpl never.
Local Arguments N.leb : simpl never.
Local Arguments N.ltb : simpl never.
Local Arguments cons_parsed : simpl never.

Lemma cons_parsed_inv (c : codepoint) (o : outcome str) (x r : str) :
  cons_parsed c o = Parsed x r -> exists x', o = Parsed x' r /\ x = c :: x'.
Proof.
  destruct o as [x' r'| |?|]; simpl; try easy.
  unfold cons_parsed. intros [= <- <-]. now exists x'.
Qed.

Lemma scanstring_mono (f : nat) :
  forall s x r, scanstring f s = Parsed x r ->
  forall f', (f <= f')%nat -> scanstring f' s = Parsed x r.
Proof.
  induction f as [|f IH]; intros s x r H f' Hle; [discriminate|].
  destruct f' as [|f']; [lia|]. assert (Hf : (f <= f')%nat) by lia.
  cbn [scanstring] in *.
  repeat break_hyp H; try assumption;
    apply cons_parsed_inv in H as (x' & H & ->);
    now rewrite (IH _ _ _ H f' Hf).
Qed.

Lemma decode_uXXXX_app (s t r : str) (u : N) :
  decode_uXXXX s = Some (u, r) -> decode_uXXXX (s ++ t) = Some (u, r ++ t).
Proof.
  destruct s as [|h1 [|h2 [|h3 [|h4 s]]]]; cbn [decode_uXXXX app]; try easy.
  intros H. repeat break_hyp H. now inversion H.
Qed.

Lemma scanstring_app (f : nat) (t : str) :
  forall s x r, scanstring f s = Parsed x r ->
  scanstring f (s ++ t) = Parsed x (r ++ t).
Proof.
  induction f as [|f IH]; intros s x r H; [discriminate|].
  destruct s as [|c s]; [discriminate|]. cbn [scanstring app] in *.
  destruct (c =? DQUOTE); [now inversion H|].
  destruct (c =? BACKSLASH_CHAR).
  - destruct s as [|esc s]; [discriminate|]. cbn [app].
    destruct (esc =? 117).
    + destruct (decode_uXXXX s) as [[uni t2]|] eqn:E; [|discriminate].
      rewrite (decode_uXXXX_app _ t _ _ E).
      destruct ((55296 <=? uni) && (uni <=? 56319)) eqn:Hhigh;
        cbn [andb] in *.
      * destruct (startswith t2 [BACKSLASH_CHAR; 117]) eqn:Hsw.
        -- rewrite (startswith_app _ _ t Hsw).
           rewrite skipn_app_le by (apply startswith_length in Hsw; exact Hsw).
           destruct (decode_uXXXX (skipn 2 t2)) as [[uni2 t3]|] eqn:E2;
             [|discriminate].
           rewrite (decode_uXXXX_app _ t _ _ E2).
           destruct ((56320 <=? uni2) && (uni2 <=? 57343));
             apply cons_parsed_inv in H as (x' & H & ->);
             now rewrite (IH _ _ _ H).
        -- apply cons_parsed_inv in H as (x' & H & ->).
           rewrite (IH _ _ _ H).
           assert (Hsw' : startswith (t2 ++ t) [BACKSLASH_CHAR; 117] = false).
           { destruct f as [|f]; [discriminate|].
             destruct t2 as [|a [|b t2]]; cbn [scanstring startswith app] in *;
               try discriminate.
             - destruct (a =? DQUOTE) eqn:Ea.
               + unfold DQUOTE, BACKSLASH_CHAR in *.
                 apply N.eqb_eq in Ea. subst a. reflexivity.
               + destruct (a =? BACKSLASH_CHAR); [discriminate|]. reflexivity.
             - exact Hsw. }
           now rewrite Hsw'.
      * apply cons_parsed_inv in H as (x' & H & ->). now rewrite (IH _ _ _ H).
    + destruct (backslash esc); [|discriminate].
      apply cons_parsed_inv in H as (x' & H & ->). now rewrite (IH _ _ _ H).
  - destruct (c <? 32); [discriminate|].
    apply cons_parsed_inv in H as (x' & H & ->). now rewrite (IH _ _ _ H).
Qed.

Lemma skip_ws_app (s t r : str) (c : codepoint) :
  skip_ws s = c :: r -> skip_ws (s ++ t) = c :: r ++ t.
Proof.
  induction s as [|x s IH]; cbn [skip_ws app]; [easy|].
  destruct (is_ws x); [exact IH|]. now intros [= -> ->].
Qed.

Lemma skip_ws_delimited (s r : str) (c : codepoint) :
  skip_ws s = c :: r ->
  (c =? COMMA) || (c =? RBRACE) || (c =? RBRACKET) = true ->
  delimited s = true.
Proof.
  destruct s as [|x s]; cbn [skip_ws delimited]; [easy|].
  destruct (is_ws x); [easy|]. intros [= -> ->] H. exact H.
Qed.

Lemma span_digits_app (s t r ds : str) (c : codepoint) :
  span_digits s = (ds, c :: r) -> span_digits (s ++ t) = (ds, c :: r ++ t).
Proof.
  revert ds. induction s as [|x s IH]; intros ds; cbn [span_digits app];
    [easy|].
  destruct (is_digit x).
  - destruct (span_digits s) as [ds' rest]. intros [= <- ->].
    now rewrite (IH _ eq_refl).
  - now intros [= <- -> ->].
Qed.

Lemma match_integer_app (s t r i : str) (c : codepoint) :
  match_integer s = Some (i, c :: r) ->
  match_integer (s ++ t) = Some (i, c :: r ++ t).
Proof.
  destruct s as [|x s]; cbn [match_integer app]; [easy|].
  destruct (x =? 48); [now intros [= <- ->]|].
  destruct (is_digit x); [|easy].
  destruct (span_digits s) as [ds rest] eqn:E. intros [= <- ->].
  now rewrite (span_digits_app _ t _ _ _ E).
Qed.

Lemma match_frac_app (s t r fr : str) (c : codepoint) :
  match_frac s = (fr, c :: r) -> (c =? DOT) = false ->
  match_frac (s ++ t) = (fr, c :: r ++ t).
Proof.
  destruct s as [|x s]; cbn [match_frac app]; [easy|].
  destruct (x =? DOT) eqn:Ex.
  - destruct (span_digits s) as [[|d ds] rest] eqn:E.
    + intros [= <- -> ->] Hc. congruence.
    + intros [= <- ->] _. now rewrite (span_digits_app _ t _ _ _ E).
  - now intros [= <- -> ->].
Qed.

Lemma match_exp_app (s t r ex : str) (c : codepoint) :
  match_exp s = (ex, c :: r) -> (c =? 101) || (c =? 69) = false ->
  match_exp (s ++ t) = (ex, c :: r ++ t).
Proof.
  destruct s as [|x s]; cbn [match_exp app]; [easy|].
  destruct ((x =? 101) || (x =? 69)) eqn:Ex.
  - destruct s as [|sg s]; [intros [= <- -> <-]; congruence|]. cbn [app].
    destruct ((sg =? MINUS) || (sg =? PLUS)).
    + destruct (span_digits s) as [[|d ds] rest] eqn:E.
      * intros [= <- -> <-]; congruence.
      * intros [= <- ->] _. now rewrite (span_digits_app _ t _ _ _ E).
    + destruct (span_digits (sg :: s)) as [[|d ds] rest] eqn:E.
      * intros [= <- -> <-]; congruence.
      * intros [= <- ->] _.
        change (sg :: s ++ t) with ((sg :: s) ++ t).
        now rewrite (span_digits_app _ t _ _ _ E).
  - now intros [= <- -> ->].
Qed.

Lemma delimited_head (r : str) :
  delimited r = true ->
  exists c r', r = c :: r' /\ (c =? DOT) = false
               /\ (c =? 101) || (c =? 69) = false.
Proof.
  destruct r as [|c r]; [easy|]. cbn [delimited]. intros H.
  exists c, r. split; [reflexivity|].
  unfold is_ws, SPACE, TAB, LF, CR, COMMA, RBRACE, RBRACKET, DOT in *.
  repeat (apply orb_true_iff in H as [H|H]);
    apply N.eqb_eq in H; subst c; now vm_compute.
Qed.

Lemma match_number_app (s t i fr ex r : str) :
  match_number s = Some (i, fr, ex, r) -> delimited r = true ->
  match_number (s ++ t) = Some (i, fr, ex, r ++ t).
Proof.
  intros H Hr. destruct (delimited_head _ Hr) as (c & r' & -> & Hdot & He).
  unfold match_number in *.
  destruct (match_signed_integer s) as [[i' r1]|] eqn:Es; [|discriminate].
  destruct (match_frac r1) as [fr' r2] eqn:Ef.
  destruct (match_exp r2) as [ex' r3] eqn:Ee.
  injection H as <- <- <- ->.
  assert (H2 : exists c2 r2', r2 = c2 :: r2' /\ (c2 =? DOT) = false).
  { destruct r2 as [|c2 r2']; [discriminate|]. exists c2, r2'.
    split; [reflexivity|]. cbn [match_exp] in Ee.
    destruct ((c2 =? 101) || (c2 =? 69)) eqn:E2.
    - unfold DOT. destruct (N.eqb_spec c2 46); [subst; discriminate|easy].
    - now injection Ee as _ <- <-. }
  destruct H2 as (c2 & r2' & -> & Hdot2).
  assert (H1 : exists c1 r1', r1 = c1 :: r1').
  { destruct r1 as [|c1 r1']; [discriminate|]. now exists c1, r1'. }
  destruct H1 as (c1 & r1' & ->).
  assert (Es' : match_signed_integer (s ++ t) = Some (i', c1 :: r1' ++ t)).
  { unfold match_signed_integer in *. destruct s as [|x s]; [discriminate|].
    cbn [app]. destruct (x =? MINUS).
    - destruct (match_integer s) as [[ds rest]|] eqn:Ei; [|discriminate].
      injection Es as <- ->. now rewrite (match_integer_app _ t _ _ _ Ei).
    - change (x :: s ++ t) with ((x :: s) ++ t).
      now apply match_integer_app. }
  rewrite Es'.
  change (c1 :: r1' ++ t) with ((c1 :: r1') ++ t).
  rewrite (match_frac_app _ t _ _ _ Ef Hdot2).
  change (c2 :: r2' ++ t) with ((c2 :: r2') ++ t).
  now rewrite (match_exp_app _ t _ _ _ Ee He).
Qed.

Lemma startswith_app_or (s p t : str) :
  startswith (s ++ t) p = startswith s p
  \/ ((length s < length p)%nat /\ startswith p s = true).
Proof.
  revert s. induction p as [|y p IH]; intros [|x s]; cbn [startswith app].
  - now left.
  - now left.
  - right. split; [cbn [length]; lia | reflexivity].
  - destruct (IH s) as [->|[Hlen Hp]]; [now left|].
    destruct (x =? y) eqn:Exy; [|now left]. right.
    apply N.eqb_eq in Exy as ->. rewrite N.eqb_refl, Hp.
    split; [cbn [length]; lia | reflexivity].
Qed.

(** No proper prefix of a literal or of a constant is a value. *)
Lemma scan_atom_proper_prefix (lim : limits) (s p : str) :
  In p [py "null"; py "true"; py "false";
        py "NaN"; py "Infinity"; py "-Infinity"] ->
  startswith p s = true -> (length s < length p)%nat ->
  scan_atom lim s = Invalid.
Proof.
  intros Hin. vm_compute in Hin.
  repeat (destruct Hin as [<-|Hin]; [|]); try easy;
    repeat (destruct s as [|? s];
            [ intros _ _; vm_compute; reflexivity
            | cbn [startswith]; intros Hp Hlen;
              apply andb_true_iff in Hp as [Hc Hp];
              apply N.eqb_eq in Hc; subst;
              revert Hp; cbn [length] in Hlen;
              apply PeanoNat.lt_S_n in Hlen; revert Hlen;
              intros Hlen Hp; revert Hp Hlen ]);
    cbn [length]; intros; lia.
Qed.

Lemma match_number_none_app (s t : str) :
  match_number s = None ->
  match_number (s ++ t) = None \/ s = [] \/ s = [MINUS].
Proof.
  unfold match_number.
  destruct (match_signed_integer s) as [[i r1]|] eqn:Es.
  - destruct (match_frac r1) as [fr r2]. now destruct (match_exp r2).
  - intros _. unfold match_signed_integer in *.
    destruct s as [|x s]; [tauto|]. cbn [app].
    destruct (x =? MINUS) eqn:Ex.
    + destruct s as [|y s].
      * apply N.eqb_eq in Ex as ->. tauto.
      * left. cbn [app match_integer] in *.
        destruct (y =? 48); [discriminate|].
        destruct (is_digit y); [|reflexivity].
        now destruct (span_digits s).
    + left. cbn [match_integer] in *.
      destruct (x =? 48); [discriminate|].
      destruct (is_digit x); [|reflexivity].
      now destruct (span_digits s).
Qed.

Lemma scan_atom_app (lim : limits) (s t r : str) (v : json) :
  scan_atom lim s = Parsed v r -> delimited r = true ->
  scan_atom lim (s ++ t) = Parsed v (r ++ t).
Proof.
  intros H Hr.
  assert (Hlit : forall p,
    In p [py "null"; py "true"; py "false";
          py "NaN"; py "Infinity"; py "-Infinity"] ->
    startswith (s ++ t) p = startswith s p).
  { intros p Hp. destruct (startswith_app_or s p t) as [E|[Hlen Hpre]];
      [exact E|].
    rewrite (scan_atom_proper_prefix lim _ _ Hp Hpre Hlen) in H. discriminate. }
  unfold scan_atom in *.
  rewrite !Hlit by (vm_compute; tauto).
  destruct (startswith s (py "null")) eqn:E1.
  { injection H as <- <-. apply startswith_length in E1.
    now rewrite skipn_app_le. }
  destruct (startswith s (py "true")) eqn:E2.
  { injection H as <- <-. apply startswith_length in E2.
    now rewrite skipn_app_le. }
  destruct (startswith s (py "false")) eqn:E3.
  { injection H as <- <-. apply startswith_length in E3.
    now rewrite skipn_app_le. }
  destruct (match_number s) as [[[[i fr] ex] r']|] eqn:En.
  - assert (r' = r) as ->
      by (destruct (is_empty fr && is_empty ex);
          [destruct (over_digit_limit lim i)|]; congruence).
    rewrite (match_number_app _ t _ _ _ _ En Hr).
    destruct (is_empty fr && is_empty ex);
      [destruct (over_digit_limit lim i)|]; congruence.
  - destruct (match_number_none_app s t En) as [->|[->| ->]];
      [|discriminate H|discriminate H].
    destruct (startswith s (py "NaN")) eqn:E4.
    { injection H as <- <-. apply startswith_length in E4.
      now rewrite skipn_app_le. }
    destruct (startswith s (py "Infinity")) eqn:E5.
    { injection H as <- <-. apply startswith_length in E5.
      now rewrite skipn_app_le. }
    destruct (startswith s (py "-Infinity")) eqn:E6; [|discriminate].
    injection H as <- <-. apply startswith_length in E6.
    now rewrite skipn_app_le.
Qed.

Lemma scan_mono (lim : limits) (f : nat) :
  (forall d s v r, scan_once lim f d s = Parsed v r ->
     forall f', (f <= f')%nat -> scan_once lim f' d s = Parsed v r)
  /\ (forall d pairs s v r, object_members lim f d pairs s = Parsed v r ->
        forall f', (f <= f')%nat ->
        object_members lim f' d pairs s = Parsed v r)
  /\ (forall d values s v r, array_items lim f d values s = Parsed v r ->
        forall f', (f <= f')%nat ->
        array_items lim f' d values s = Parsed v r).
Proof.
  induction f as [|f (IHs & IHo & IHa)]; [repeat split; discriminate|].
  repeat split.
  - intros d s v r H [|f'] Hle; [lia|].
    cbn [scan_once] in *. destruct s as [|c s]; [discriminate|].
    destruct (c =? DQUOTE); [exact H|].
    destruct (c =? LBRACE).
    { destruct d as [|d]; [discriminate|].
      destruct (skip_ws s) as [|c1 t1]; [discriminate|].
      destruct (c1 =? RBRACE); [exact H|].
      destruct (c1 =? DQUOTE); [|discriminate].
      apply (IHo _ _ _ _ _ H). lia. }
    destruct (c =? LBRACKET); [|exact H].
    destruct d as [|d]; [discriminate|].
    destruct (skip_ws s) as [|c1 t1]; [discriminate|].
    destruct (c1 =? RBRACKET); [exact H|].
    apply (IHa _ _ _ _ _ H). lia.
  - intros d pairs s v r H [|f'] Hle; [lia|].
    cbn [object_members] in *.
    destruct (scanstring (S (length s)) s) as [key r0| |?|]; try discriminate.
    destruct (skip_ws r0) as [|c1 r1]; [discriminate|].
    destruct (c1 =? COLON); [|discriminate].
    destruct (scan_once lim f d (skip_ws r1)) as [value r2| |?|] eqn:Ev;
      try discriminate.
    rewrite (IHs _ _ _ _ Ev f') by lia.
    destruct (skip_ws r2) as [|c3 r3]; [discriminate|].
    destruct (c3 =? RBRACE); [exact H|].
    destruct (c3 =? COMMA); [|discriminate].
    destruct (skip_ws r3) as [|c4 r4]; [discriminate|].
    destruct (c4 =? DQUOTE); [|discriminate].
    apply (IHo _ _ _ _ _ H). lia.
  - intros d values s v r H [|f'] Hle; [lia|].
    cbn [array_items] in *.
    destruct (scan_once lim f d s) as [value r0| |?|] eqn:Ev;
      try discriminate.
    rewrite (IHs _ _ _ _ Ev f') by lia.
    destruct (skip_ws r0) as [|c1 r1]; [discriminate|].
    destruct (c1 =? RBRACKET); [exact H|].
    destruct (c1 =? COMMA); [|discriminate].
    apply (IHa _ _ _ _ _ H). lia.
Qed.

Lemma scanstring_budget_app (s t x r : str) :
  scanstring (S (length s)) s = Parsed x r ->
  scanstring (S (length (s ++ t))) (s ++ t) = Parsed x (r ++ t).
Proof.
  intros H. apply (scanstring_mono (S (length s))).
  - now apply scanstring_app.
  - rewrite length_app. lia.
Qed.

Lemma scan_app (lim : limits) (f : nat) (t : str) :
  (forall d s v r, scan_once lim f d s = Parsed v r ->
     delimited r = true \/ opens_structure s = true ->
     scan_once lim f d (s ++ t) = Parsed v (r ++ t))
  /\ (forall d pairs s v r, object_members lim f d pairs s = Parsed v r ->
        object_members lim f d pairs (s ++ t) = Parsed v (r ++ t))
  /\ (forall d values s v r, array_items lim f d values s = Parsed v r ->
        array_items lim f d values (s ++ t) = Parsed v (r ++ t)).
Proof.
  induction f as [|f (IHs & IHo & IHa)]; [repeat split; discriminate|].
  repeat split.
  - intros d s v r H Hc. destruct s as [|c s]; [discriminate|].
    cbn [scan_once app opens_structure] in *.
    destruct (c =? DQUOTE).
    { destruct (scanstring (S (length s)) s) as [x r0| |?|] eqn:Ex;
        try discriminate.
      rewrite (scanstring_budget_app _ t _ _ Ex). now injection H as <- <-. }
    destruct (c =? LBRACE).
    { destruct d as [|d]; [discriminate|].
      destruct (skip_ws s) as [|c1 t1] eqn:E1; [discriminate|].
      rewrite (skip_ws_app _ t _ _ E1).
      destruct (c1 =? RBRACE); [now injection H as <- <-|].
      destruct (c1 =? DQUOTE); [|discriminate].
      now apply IHo. }
    destruct (c =? LBRACKET).
    { destruct d as [|d]; [discriminate|].
      destruct (skip_ws s) as [|c1 t1] eqn:E1; [discriminate|].
      rewrite (skip_ws_app _ t _ _ E1).
      destruct (c1 =? RBRACKET); [now injection H as <- <-|].
      now apply (IHa _ _ (c1 :: t1)). }
    destruct Hc as [Hd|Hc]; [|discriminate].
    now apply (scan_atom_app lim (c :: s)).
  - intros d pairs s v r H. cbn [object_members] in *.
    destruct (scanstring (S (length s)) s) as [key r0| |?|] eqn:Ek;
      try discriminate.
    rewrite (scanstring_budget_app _ t _ _ Ek).
    destruct (skip_ws r0) as [|c1 r1] eqn:E0; [discriminate|].
    rewrite (skip_ws_app _ t _ _ E0).
    destruct (c1 =? COLON); [|discriminate].
    destruct (scan_once lim f d (skip_ws r1)) as [value r2| |?|] eqn:Ev;
      try discriminate.
    destruct (skip_ws r1) as [|c2 r1'] eqn:E1;
      [destruct f; discriminate|].
    rewrite (skip_ws_app _ t _ _ E1).
    destruct (skip_ws r2) as [|c3 r3] eqn:E2; [discriminate|].
    assert (Hd : delimited r2 = true).
    { apply (skip_ws_delimited _ _ _ E2).
      destruct (c3 =? RBRACE), (c3 =? COMMA); try discriminate; reflexivity. }
    pose proof (IHs _ _ _ _ Ev (or_introl Hd)) as Ev'. cbn [app] in Ev'.
    rewrite Ev', (skip_ws_app _ t _ _ E2).
    destruct (c3 =? RBRACE); [now injection H as <- <-|].
    destruct (c3 =? COMMA); [|discriminate].
    destruct (skip_ws r3) as [|c4 r4] eqn:E3; [discriminate|].
    rewrite (skip_ws_app _ t _ _ E3).
    destruct (c4 =? DQUOTE); [|discriminate].
    now apply IHo.
  - intros d values s v r H. cbn [array_items] in *.
    destruct (scan_once lim f d s) as [value r0| |?|] eqn:Ev;
      try discriminate.
    destruct (skip_ws r0) as [|c1 r1] eqn:E0; [discriminate|].
    assert (Hd : delimited r0 = true).
    { apply (skip_ws_delimited _ _ _ E0).
      destruct (c1 =? RBRACKET), (c1 =? COMMA); try discriminate;
        try reflexivity; now rewrite ?orb_true_r. }
    rewrite (IHs _ _ _ _ Ev (or_introl Hd)), (skip_ws_app _ t _ _ E0).
    destruct (c1 =? RBRACKET); [now injection H as <- <-|].
    destruct (c1 =? COMMA); [|discriminate].
    destruct (skip_ws r1) as [|c2 r1'] eqn:E1.
    { destruct f as [|f]; [discriminate|]. cbn [array_items] in H.
      destruct f; discriminate. }
    rewrite (skip_ws_app _ t _ _ E1).
    now apply (IHa _ _ (c2 :: r1')).
Qed.

(** *** A value takes at least one character *)

Lemma skip_ws_length (s : str) : (length (skip_ws s) <= length s)%nat.
Proof.
  induction s as [|x s IH]; cbn [skip_ws length]; [lia|].
  destruct (is_ws x); cbn [length]; lia.
Qed.

Lemma skip_ws_cons_length (s r : str) (c : codepoint) :
  skip_ws s = c :: r -> (length r < length s)%nat.
Proof.
  intros H. pose proof (skip_ws_length s) as Hl. rewrite H in Hl.
  cbn [length] in Hl. lia.
Qed.

Lemma decode_uXXXX_length (s r : str) (u : N) :
  decode_uXXXX s = Some (u, r) -> length s = (4 + length r)%nat.
Proof.
  destruct s as [|h1 [|h2 [|h3 [|h4 s]]]]; cbn [decode_uXXXX]; try easy.
  intros H. repeat break_hyp H. now inversion H.
Qed.

Lemma scanstring_consumes (f : nat) :
  forall s x r, scanstring f s = Parsed x r -> (length r < length s)%nat.
Proof.
  induction f as [|f IH]; intros s x r H; [discriminate|].
  cbn [scanstring] in H.
  repeat break_hyp H; subst;
    try (injection H as <- <-; cbn [length]; lia);
    apply cons_parsed_inv in H as (x' & H & ->); apply IH in H;
    repeat match goal with
    | E : decode_uXXXX _ = Some _ |- _ => apply decode_uXXXX_length in E
    end;
    rewrite ?length_skipn in *; cbn [length] in *; lia.
Qed.

Lemma span_digits_length (s ds r : str) :
  span_digits s = (ds, r) -> (length r <= length s)%nat.
Proof.
  revert ds. induction s as [|x s IH]; intros ds; cbn [span_digits].
  - intros [= <- <-]. cbn [length]. lia.
  - destruct (is_digit x).
    + destruct (span_digits s) as [ds' r'] eqn:E. intros [= <- <-].
      specialize (IH _ eq_refl). cbn [length]. lia.
    + intros [= <- <-]. lia.
Qed.

Lemma match_integer_length (s i r : str) :
  match_integer s = Some (i, r) -> (length r < length s)%nat.
Proof.
  destruct s as [|x s]; cbn [match_integer]; [easy|].
  destruct (x =? 48); [intros [= <- <-]; cbn [length]; lia|].
  destruct (is_digit x); [|easy].
  destruct (span_digits s) as [ds r'] eqn:E. intros [= <- <-].
  apply span_digits_length in E. cbn [length]. lia.
Qed.

Lemma match_frac_length (s fr r : str) :
  match_frac s = (fr, r) -> (length r <= length s)%nat.
Proof.
  destruct s as [|x s]; cbn [match_frac]; [intros [= <- <-]; lia|].
  destruct (x =? DOT); [|intros [= <- <-]; lia].
  destruct (span_digits s) as [[|d ds] r'] eqn:E; intros [= <- <-];
    [lia|]. apply span_digits_length in E. cbn [length]. lia.
Qed.

Lemma match_exp_length (s ex r : str) :
  match_exp s = (ex, r) -> (length r <= length s)%nat.
Proof.
  destruct s as [|x s]; cbn [match_exp]; [intros [= <- <-]; lia|].
  destruct ((x =? 101) || (x =? 69)); [|intros [= <- <-]; lia].
  destruct s as [|sg s]; [intros [= <- <-]; lia|].
  destruct ((sg =? MINUS) || (sg =? PLUS)).
  - destruct (span_digits s) as [[|d ds] r'] eqn:E; intros [= <- <-];
      [lia|]. apply span_digits_length in E. cbn [length]. lia.
  - destruct (span_digits (sg :: s)) as [[|d ds] r'] eqn:E;
      intros [= <- <-]; [lia|].
    apply span_digits_length in E. cbn [length] in *. lia.
Qed.

Lemma match_signed_integer_length (s i r : str) :
  match_signed_integer s = Some (i, r) -> (length r < length s)%nat.
Proof.
  destruct s as [|x s]; cbn [match_signed_integer]; [easy|].
  destruct (x =? MINUS).
  - destruct (match_integer s) as [[ds rest]|] eqn:E; [|easy].
    intros [= <- <-]. apply match_integer_length in E. cbn [length]. lia.
  - apply match_integer_length.
Qed.

Lemma match_number_length (s i fr ex r : str) :
  match_number s = Some (i, fr, ex, r) -> (length r < length s)%nat.
Proof.
  unfold match_number.
  destruct (match_signed_integer s) as [[i1 r1]|] eqn:Es; [|easy].
  apply match_signed_integer_length in Es.
  destruct (match_frac r1) as [fr' r2] eqn:Ef.
  destruct (match_exp r2) as [ex' r3] eqn:Ee. intros [= <- <- <- <-].
  apply match_frac_length in Ef. apply match_exp_length in Ee. lia.
Qed.

Lemma scan_atom_consumes (lim : limits) (s r : str) (v : json) :
  scan_atom lim s = Parsed v r -> (length r < length s)%nat.
Proof.
  assert (Hlit : forall p k w,
    startswith s p = true -> length p = S k ->
    Parsed w (skipn (S k) s) = Parsed v r -> (length r < length s)%nat).
  { intros p k w E Hp Heq. apply startswith_length in E.
    assert (r = skipn (S k) s) as -> by congruence.
    rewrite length_skipn. lia. }
  unfold scan_atom. intros H.
  destruct (startswith s (py "null")) eqn:E1;
    [exact (Hlit _ _ _ E1 eq_refl H)|].
  destruct (startswith s (py "true")) eqn:E2;
    [exact (Hlit _ _ _ E2 eq_refl H)|].
  destruct (startswith s (py "false")) eqn:E3;
    [exact (Hlit _ _ _ E3 eq_refl H)|].
  destruct (match_number s) as [[[[i fr] ex] r']|] eqn:En.
  - apply match_number_length in En.
    destruct (is_empty fr && is_empty ex);
      [destruct (over_digit_limit lim i); [discriminate|]|];
      injection H as <- <-; exact En.
  - destruct (startswith s (py "NaN")) eqn:E4;
      [exact (Hlit _ _ _ E4 eq_refl H)|].
    destruct (startswith s (py "Infinity")) eqn:E5;
      [exact (Hlit _ _ _ E5 eq_refl H)|].
    destruct (startswith s (py "-Infinity")) eqn:E6;
      [exact (Hlit _ _ _ E6 eq_refl H)|discriminate].
Qed.

Lemma scan_consumes (lim : limits) (f : nat) :
  (forall d s v r, scan_once lim f d s = Parsed v r ->
     (length r < length s)%nat)
  /\ (forall d pairs s v r, object_members lim f d pairs s = Parsed v r ->
        (length r < length s)%nat)
  /\ (forall d values s v r, array_items lim f d values s = Parsed v r ->
        (length r < length s)%nat).
Proof.
  induction f as [|f (IHs & IHo & IHa)]; [repeat split; discriminate|].
  repeat split.
  - intros d s v r H. destruct s as [|c s]; [discriminate|].
    cbn [scan_once] in H.
    destruct (c =? DQUOTE).
    { destruct (scanstring (S (length s)) s) as [x r0| |?|] eqn:Ex;
        try discriminate.
      injection H as <- <-. apply scanstring_consumes in Ex.
      cbn [length]. lia. }
    destruct (c =? LBRACE).
    { destruct d as [|d]; [discriminate|].
      destruct (skip_ws s) as [|c1 t1] eqn:E1; [discriminate|].
      apply skip_ws_cons_length in E1.
      destruct (c1 =? RBRACE); [injection H as <- <-; cbn [length]; lia|].
      destruct (c1 =? DQUOTE); [|discriminate].
      apply IHo in H. cbn [length]. lia. }
    destruct (c =? LBRACKET); [|now apply scan_atom_consumes in H].
    destruct d as [|d]; [discriminate|].
    destruct (skip_ws s) as [|c1 t1] eqn:E1; [discriminate|].
    apply skip_ws_cons_length in E1.
    destruct (c1 =? RBRACKET); [injection H as <- <-; cbn [length]; lia|].
    apply IHa in H. cbn [length] in *. lia.
  - intros d pairs s v r H. cbn [object_members] in H.
    destruct (scanstring (S (length s)) s) as [key r0| |?|] eqn:Ek;
      try discriminate.
    apply scanstring_consumes in Ek.
    destruct (skip_ws r0) as [|c1 r1] eqn:E0; [discriminate|].
    apply skip_ws_cons_length in E0.
    destruct (c1 =? COLON); [|discriminate].
    destruct (scan_once lim f d (skip_ws r1)) as [value r2| |?|] eqn:Ev;
      try discriminate.
    apply IHs in Ev. pose proof (skip_ws_length r1).
    destruct (skip_ws r2) as [|c3 r3] eqn:E2; [discriminate|].
    apply skip_ws_cons_length in E2.
    destruct (c3 =? RBRACE); [injection H as <- <-; lia|].
    destruct (c3 =? COMMA); [|discriminate].
    destruct (skip_ws r3) as [|c4 r4] eqn:E3; [discriminate|].
    apply skip_ws_cons_length in E3.
    destruct (c4 =? DQUOTE); [|discriminate].
    apply IHo in H. lia.
  - intros d values s v r H. cbn [array_items] in H.
    destruct (scan_once lim f d s) as [value r0| |?|] eqn:Ev;
      try discriminate.
    apply IHs in Ev.
    destruct (skip_ws r0) as [|c1 r1] eqn:E0; [discriminate|].
    apply skip_ws_cons_length in E0.
    destruct (c1 =? RBRACKET); [injection H as <- <-; lia|].
    destruct (c1 =? COMMA); [|discriminate].
    apply IHa in H. pose proof (skip_ws_length r1). lia.
Qed.

(** *** The budget is never used up *)

Lemma cons_parsed_exhausted (c : codepoint) (o : outcome str) :
  o <> Exhausted -> cons_parsed c o <> Exhausted.
Proof. now destruct o. Qed.

Lemma scanstring_total (f : nat) :
  forall s, (length s < f)%nat -> scanstring f s <> Exhausted.
Proof.
  induction f as [|f IH]; intros s Hlen; [lia|].
  cbn [scanstring].
  repeat match goal with
  | |- context [match ?x with _ => _ end] => destruct x eqn:?
  | |- context [if ?x then _ else _] => destruct x eqn:?
  end; try discriminate; subst;
    apply cons_parsed_exhausted, IH;
    repeat match goal with
    | E : decode_uXXXX _ = Some _ |- _ => apply decode_uXXXX_length in E
    end;
    rewrite ?length_skipn in *; cbn [length] in *; lia.
Qed.

Lemma scan_total (lim : limits) (f : nat) :
  (forall d s, (2 * length s < f)%nat -> scan_once lim f d s <> Exhausted)
  /\ (forall d pairs s, (2 * length s < f)%nat ->
        object_members lim f d pairs s <> Exhausted)
  /\ (forall d values s, (2 * length s + 1 < f)%nat ->
        array_items lim f d values s <> Exhausted).
Proof.
  induction f as [|f (IHs & IHo & IHa)]; [repeat split; intros; lia|].
  repeat split.
  - intros d s Hlen. destruct s as [|c s]; [discriminate|].
    cbn [scan_once]. cbn [length] in Hlen.
    destruct (c =? DQUOTE).
    { pose proof (scanstring_total (S (length s)) s) as Ht.
      destruct (scanstring (S (length s)) s); try discriminate.
      exfalso. apply Ht; [lia|reflexivity]. }
    destruct (c =? LBRACE).
    { destruct d as [|d]; [discriminate|].
      destruct (skip_ws s) as [|c1 t1] eqn:E1; [discriminate|].
      apply skip_ws_cons_length in E1.
      destruct (c1 =? RBRACE); [discriminate|].
      destruct (c1 =? DQUOTE); [|discriminate].
      apply IHo. lia. }
    destruct (c =? LBRACKET).
    { destruct d as [|d]; [discriminate|].
      destruct (skip_ws s) as [|c1 t1] eqn:E1; [discriminate|].
      apply skip_ws_cons_length in E1.
      destruct (c1 =? RBRACKET); [discriminate|].
      apply IHa. cbn [length]. lia. }
    unfold scan_atom.
    repeat match goal with
    | |- context [match ?x with _ => _ end] => destruct x
    | |- context [if ?x then _ else _] => destruct x
    end; discriminate.
  - intros d pairs s Hlen. cbn [object_members].
    pose proof (scanstring_total (S (length s)) s) as Ht.
    destruct (scanstring (S (length s)) s) as [key r0| |?|] eqn:Ek;
      [|discriminate|discriminate|exfalso; apply Ht; [lia|reflexivity]].
    apply scanstring_consumes in Ek.
    destruct (skip_ws r0) as [|c1 r1] eqn:E0; [discriminate|].
    apply skip_ws_cons_length in E0.
    destruct (c1 =? COLON); [|discriminate].
    pose proof (skip_ws_length r1) as Hr1.
    pose proof (IHs d (skip_ws r1)) as Hs.
    destruct (scan_once lim f d (skip_ws r1)) as [value r2| |?|] eqn:Ev;
      [|discriminate|discriminate|exfalso; apply Hs; [lia|reflexivity]].
    apply (proj1 (scan_consumes lim f)) in Ev.
    destruct (skip_ws r2) as [|c3 r3] eqn:E2; [discriminate|].
    apply skip_ws_cons_length in E2.
    destruct (c3 =? RBRACE); [discriminate|].
    destruct (c3 =? COMMA); [|discriminate].
    destruct (skip_ws r3) as [|c4 r4] eqn:E3; [discriminate|].
    apply skip_ws_cons_length in E3.
    destruct (c4 =? DQUOTE); [|discriminate].
    apply IHo. lia.
  - intros d values s Hlen. cbn [array_items].
    pose proof (IHs d s) as Hs.
    destruct (scan_once lim f d s) as [value r0| |?|] eqn:Ev;
      [|discriminate|discriminate|exfalso; apply Hs; [lia|reflexivity]].
    apply (proj1 (scan_consumes lim f)) in Ev.
    destruct (skip_ws r0) as [|c1 r1] eqn:E0; [discriminate|].
    apply skip_ws_cons_length in E0.
    destruct (c1 =? RBRACKET); [discriminate|].
    destruct (c1 =? COMMA); [|discriminate].
    apply IHa. pose proof (skip_ws_length r1). lia.
Qed.

(** [json.loads] never stops for want of budget. *)
Lemma json_loads_budget (lim : limits) (d : nat) (s : str) :
  scan_once lim (S (2 * length s)) d (skip_ws s) <> Exhausted.
Proof.
  apply (proj1 (scan_total _ _)). pose proof (skip_ws_length s). lia.
Qed.

(** *** Text after an object *)

Lemma skip_ws_app_nil (r t : str) :
  skip_ws r = [] -> skip_ws (r ++ t) = skip_ws t.
Proof.
  induction r as [|x r IH]; cbn [skip_ws app]; [easy|].
  destruct (is_ws x); [exact IH|easy].
Qed.

Lemma skip_ws_keeps (c : codepoint) (s : str) :
  In c s -> is_ws c = false -> skip_ws s <> [].
Proof.
  induction s as [|x s IH]; cbn [skip_ws In]; [easy|].
  intros [->|Hin] Hc; [now rewrite Hc|].
  destruct (is_ws x); [now apply IH|easy].
Qed.

(** A text that decodes and opens with a brace stops decoding as soon as
    anything but whitespace is appended: the object is read as before and the
    addition is extra data. *)
Lemma json_loads_trailing (lim : limits) (o t : str) (v : json) :
  json_loads lim (LBRACE :: o) = Returns v -> skip_ws t <> [] ->
  json_loads lim ((LBRACE :: o) ++ t) = Raises JSONDecodeError.
Proof.
  unfold json_loads. intros H Ht.
  change (startswith ((LBRACE :: o) ++ t) [65279]) with false.
  change (startswith (LBRACE :: o) [65279]) with false in H.
  change (skip_ws ((LBRACE :: o) ++ t)) with ((LBRACE :: o) ++ t).
  change (skip_ws (LBRACE :: o)) with (LBRACE :: o) in H.
  cbv iota in *.
  destruct (scan_once lim (S (2 * length (LBRACE :: o))) (max_nesting lim)
              (LBRACE :: o))
    as [v0 rest| |?|] eqn:E; try discriminate.
  destruct (skip_ws rest) eqn:Er; [|discriminate].
  pose proof (proj1 (scan_app _ _ t) _ _ _ _ E (or_intror eq_refl)) as E'.
  apply (proj1 (scan_mono _ _))
    with (f' := S (2 * length ((LBRACE :: o) ++ t)))
    in E'; [|rewrite length_app; lia].
  rewrite E', (skip_ws_app_nil _ _ Er).
  now destruct (skip_ws t).
Qed.

(** *** What the decoder raises *)

Lemma scanstring_not_aborted (f : nat) :
  forall s e, scanstring f s <> Aborted e.
Proof.
  induction f as [|f IH]; intros s e; [discriminate|].
  cbn [scanstring].
  repeat match goal with
  | |- context [match ?x with _ => _ end] => destruct x eqn:?
  | |- context [if ?x then _ else _] => destruct x eqn:?
  end; try discriminate;
    match goal with
    | |- cons_parsed _ ?o <> _ =>
      pose proof (IH) as IH'; destruct o eqn:Eo; try discriminate;
      exfalso; eapply IH'; exact Eo
    end.
Qed.

Lemma scan_atom_aborted (lim : limits) (s : str) (e : exn) :
  scan_atom lim s = Aborted e ->
  e = IntegerValueError /\ int_max_str_digits lim <> O.
Proof.
  unfold scan_atom.
  destruct (startswith s (py "null")); [discriminate|].
  destruct (startswith s (py "true")); [discriminate|].
  destruct (startswith s (py "false")); [discriminate|].
  destruct (match_number s) as [[[[i fr] ex] r]|].
  - destruct (is_empty fr && is_empty ex); [|discriminate].
    destruct (over_digit_limit lim i) eqn:Eo; [|discriminate].
    intros [= <-]. split; [reflexivity|].
    unfold over_digit_limit in Eo.
    apply andb_true_iff in Eo as [Eo _].
    apply andb_true_iff in Eo as [_ Eo].
    intros Hz. rewrite Hz in Eo. discriminate.
  - destruct (startswith s (py "NaN")); [discriminate|].
    destruct (startswith s (py "Infinity")); [discriminate|].
    destruct (startswith s (py "-Infinity")); discriminate.
Qed.

(** [json.loads] raises a decoding error or one of the two exceptions of
    the limits, and the [ValueError] of [int()] only under a limit. *)
Lemma scan_aborted (lim : limits) (f : nat) :
  (forall d s e, scan_once lim f d s = Aborted e ->
     e = RecursionError
     \/ (e = IntegerValueError /\ int_max_str_digits lim <> O))
  /\ (forall d pairs s e, object_members lim f d pairs s = Aborted e ->
        e = RecursionError
        \/ (e = IntegerValueError /\ int_max_str_digits lim <> O))
  /\ (forall d values s e, array_items lim f d values s = Aborted e ->
        e = RecursionError
        \/ (e = IntegerValueError /\ int_max_str_digits lim <> O)).
Proof.
  induction f as [|f (IHs & IHo & IHa)]; [repeat split; discriminate|].
  repeat split.
  - intros d s e H. destruct s as [|c s]; [discriminate|].
    cbn [scan_once] in H.
    destruct (c =? DQUOTE).
    { pose proof (scanstring_not_aborted (S (length s)) s) as Hn.
      destruct (scanstring (S (length s)) s); try discriminate.
      now elim (Hn e0). }
    destruct (c =? LBRACE).
    { destruct d as [|d]; [injection H as <-; now left|].
      destruct (skip_ws s) as [|c1 t1]; [discriminate|].
      destruct (c1 =? RBRACE); [discriminate|].
      destruct (c1 =? DQUOTE); [|discriminate].
      now apply IHo in H. }
    destruct (c =? LBRACKET); [|right; now apply scan_atom_aborted in H].
    destruct d as [|d]; [injection H as <-; now left|].
    destruct (skip_ws s) as [|c1 t1]; [discriminate|].
    destruct (c1 =? RBRACKET); [discriminate|].
    now apply IHa in H.
  - intros d pairs s e H. cbn [object_members] in H.
    pose proof (scanstring_not_aborted (S (length s)) s) as Hn.
    destruct (scanstring (S (length s)) s) as [key r0| |e0|];
      try discriminate; [|now elim (Hn e0)].
    destruct (skip_ws r0) as [|c1 r1]; [discriminate|].
    destruct (c1 =? COLON); [|discriminate].
    destruct (scan_once lim f d (skip_ws r1)) as [value r2| |e0|] eqn:Ev;
      try discriminate; [|injection H as <-; now apply IHs in Ev].
    destruct (skip_ws r2) as [|c3 r3]; [discriminate|].
    destruct (c3 =? RBRACE); [discriminate|].
    destruct (c3 =? COMMA); [|discriminate].
    destruct (skip_ws r3) as [|c4 r4]; [discriminate|].
    destruct (c4 =? DQUOTE); [|discriminate].
    now apply IHo in H.
  - intros d values s e H. cbn [array_items] in H.
    destruct (scan_once lim f d s) as [value r0| |e0|] eqn:Ev;
      try discriminate; [|injection H as <-; now apply IHs in Ev].
    destruct (skip_ws r0) as [|c1 r1]; [discriminate|].
    destruct (c1 =? RBRACKET); [discriminate|].
    destruct (c1 =? COMMA); [|discriminate].
    now apply IHa in H.
Qed.

Lemma json_loads_raises (lim : limits) (s : str) (e : exn) :
  json_loads lim s = Raises e ->
  e = JSONDecodeError \/ e = RecursionError
  \/ (e = IntegerValueError /\ int_max_str_digits lim <> O).
Proof.
  unfold json_loads.
  destruct (startswith s [65279]); [intros [= <-]; now left|].
  destruct (scan_once lim (S (2 * length s)) (max_nesting lim) (skip_ws s))
    as [v rest| |e0|] eqn:E.
  - destruct (skip_ws rest); [discriminate|intros [= <-]; now left].
  - intros [= <-]. now left.
  - intros [= <-]. right. now apply (proj1 (scan_aborted _ _)) in E.
  - intros [= <-]. now left.
Qed.

(** ** [in] on one character *)

Lemma contains_char (c : codepoint) (s : str) :
  contains s [c] = false <-> ~ In c s.
Proof.
  induction s as [|x s IH]; cbn [contains startswith In]; [tauto|].
  rewrite andb_true_r, orb_false_iff, IH, N.eqb_neq. intuition congruence.
Qed.

Lemma contains_app_l (s t p : str) :
  contains s p = true -> contains (s ++ t) p = true.
Proof.
  induction s as [|x s IH]; cbn [contains app].
  - destruct p; [now destruct t|]. cbn [startswith]. discriminate.
  - intros H. apply orb_true_iff in H as [H|H].
    + change (x :: s ++ t) with ((x :: s) ++ t).
      now rewrite (startswith_app _ _ t H).
    + rewrite (IH H). apply orb_true_r.
Qed.

(** ** The resolver *)

Lemma resolve_response_recovered (lim : limits) (text : str) (v : json) :
  resolve_response lim text = Returns v <-> recovered lim text v.
Proof.
  unfold resolve_response, recovered.
  destruct (json_loads lim (strip text)) as [w|e].
  - split; [intros [= ->]; now left|].
    intros [[= ->]|[[=] _]]. reflexivity.
  - destruct e;
      try (split; [discriminate|intros [[=]|[[=] _]]]).
    destruct (re_search_braces (strip text)) as [json_str|].
    + destruct (json_loads lim json_str) as [w|e] eqn:E; cbn [bind].
      * split; [intros [= ->]; right; eauto|].
        intros [[=]|(_ & s & [= <-] & Hs)]. congruence.
      * split; [discriminate|].
        intros [[=]|(_ & s & [= <-] & Hs)]. congruence.
    + split; [discriminate|]. intros [[=]|(_ & s & [=] & _)].
Qed.

(** An exception of the first [json.loads] that is not a decoding error
    leaves the resolver as it is: the span is not looked for. *)
Lemma resolve_response_passes (lim : limits) (text : str) (e : exn) :
  json_loads lim (strip text) = Raises e -> is_decode_error e = false ->
  resolve_response lim text = Raises e.
Proof.
  intros H He. unfold resolve_response. rewrite H.
  now destruct e.
Qed.

(** What [analyze_document_with_gemini] does with the text of a response. *)
Lemma analyze_document_with_gemini_response
    (generate_content : GenerateRequest -> result str) (lim : limits)
    (document_text api_key text : str) :
  generate_content (gemini_call api_key document_text) = Returns text ->
  analyze_document_with_gemini true generate_content lim
    document_text api_key
  = ([gemini_call api_key document_text],
     reraise "Error analyzing document with Gemini: "
       (resolve_response lim text)).
Proof.
  intros H. unfold analyze_document_with_gemini, configure_gemini.
  cbv iota. now rewrite H.
Qed.

Lemma resolve_response_span (lim : limits) (text pre body post : str) :
  strip text = pre ++ LBRACE :: body ++ RBRACE :: post ->
  contains pre [LBRACE] = false -> contains post [RBRACE] = false ->
  json_loads lim (strip text) = Raises JSONDecodeError ->
  resolve_response lim text = json_loads lim (LBRACE :: body ++ [RBRACE]).
Proof.
  intros Hs Hpre Hpost Hd. unfold resolve_response. rewrite Hd, Hs.
  rewrite re_search_braces_span by now apply contains_char.
  now destruct (json_loads lim (LBRACE :: body ++ [RBRACE])).
Qed.
(** ** Required keys (C1) *)

(** C1, as stated, fails: the response [{}] is recovered by parsing the
    whole text, it has none of the keys [terms], [expressions] and
    [overall_costs], and [analyze_document_with_gemini] returns it. *)
Lemma resolver_returns_object_without_keys :
  recovered example_limits (py "{}") (JObject [])
  /\ lacks_required_key (JObject []) = true
  /\ snd (analyze_document_with_gemini true (fun _ => Returns (py "{}"))
            example_limits (py "protocol text") (py "key"))
     = Returns (JObject []).
Proof.
  split; [left; vm_compute; reflexivity|].
  split; vm_compute; reflexivity.
Qed.

(** C1, amended: the resolver of [analyze_document_with_gemini] checks no
    key.  Given the text of the response, the function returns a value
    exactly when that value is recovered from the text: [json.loads]
    returns it on the whole stripped text, or [json.loads] raises
    [JSONDecodeError] on the stripped text and returns it on the brace
    span; whatever the top-level keys of the value.  [json.loads] is the
    decoder under the limits of the interpreter: a text on which it raises
    [RecursionError] or the [ValueError] of [int()] gives no value, and when
    it does so on the whole stripped text the span is not tried. *)
Theorem analyze_returns_what_is_recovered
    (generate_content : GenerateRequest -> result str) (lim : limits)
    (document_text api_key text : str) (v : json) :
  generate_content (gemini_call api_key document_text) = Returns text ->
  (snd (analyze_document_with_gemini true generate_content lim
          document_text api_key) = Returns v
   <-> recovered lim text v).
Proof.
  intros H. rewrite (analyze_document_with_gemini_response _ _ _ _ _ H).
  cbn [snd]. rewrite <- resolve_response_recovered.
  unfold reraise. destruct (resolve_response lim text); split; congruence.
Qed.

Lemma analyze_returns_what_is_recovered_witness :
  snd (analyze_document_with_gemini true (fun _ => Returns (py "{}"))
         example_limits (py "protocol text") (py "key"))
  = Returns (JObject [])
  <-> recovered example_limits (py "{}") (JObject []).
Proof.
  apply (analyze_returns_what_is_recovered
           (fun _ => Returns (py "{}")) example_limits
           (py "protocol text") (py "key")).
  reflexivity.
Defined.

(** The limits at work in the resolver.  A response that opens with an
    integer of 4301 digits and goes on with an object: the first
    [json.loads] raises the [ValueError] of [int()], line 138 does not
    catch it, and nothing is recovered although the span is an object.  The
    same with 101 opening brackets before the object. *)
Example resolver_at_the_limits :
  let object := py "{" ++ dq "a" ++ py ":1}" in
  let digits := repeat 49 4301 ++ py " " ++ object in
  let brackets := repeat LBRACKET 101 ++ object in
  re_search_braces digits = Some object
  /\ json_loads example_limits object = Returns (JObject [(py "a", JInt 1)])
  /\ resolve_response example_limits digits = Raises IntegerValueError
  /\ re_search_braces brackets = Some object
  /\ resolve_response example_limits brackets = Raises RecursionError
  /\ snd (analyze_document_with_gemini true (fun _ => Returns digits)
            example_limits (py "protocol text") (py "key"))
     = Raises (Exception
                 (TextStr (py "Error analyzing document with Gemini: ")
                          IntegerValueError)).
Proof. vm_compute. repeat split; reflexivity. Qed.

(** ** An object inside prose (C3) *)

(** C3, as stated, fails: in the response below the only piece that is a
    JSON object is [{"terms":[]}], prose surrounds it and the stripped text
    is not JSON, yet the resolver raises.  The prose has a brace of its
    own, and the span of the regular expression starts there. *)
Lemma embedded_object_lost_to_brace_in_prose :
  let object := py "{" ++ dq "terms" ++ py ":[]}" in
  let text := py "Result {JSON}: " ++ object ++ py " Thanks!" in
  strip text = text
  /\ json_loads example_limits text = Raises JSONDecodeError
  /\ json_loads example_limits object
     = Returns (JObject [(py "terms", JArray [])])
  /\ filter decodes_to_object (substrings text) = [object]
  /\ re_search_braces text = Some (py "{JSON}: " ++ object)
  /\ resolve_response example_limits text = Raises JSONDecodeError.
Proof. vm_compute. repeat split; reflexivity. Qed.

(** C3, amended: when [json.loads] raises [JSONDecodeError] on the stripped
    response, and the response holds, between prose that has no opening
    brace before it and no closing brace after it, an object that
    [json.loads] decodes under the limits of the interpreter (its nesting
    and its integers within them), the resolver returns the value of that
    object; the response of section 8.6 gives its object in every
    interpreter that has room for two nested values. *)
Theorem embedded_object_recovered :
  (forall lim text pre body post v,
     strip text = pre ++ LBRACE :: body ++ RBRACE :: post ->
     json_loads lim (strip text) = Raises JSONDecodeError ->
     json_loads lim (LBRACE :: body ++ [RBRACE]) = Returns v ->
     contains pre [LBRACE] = false ->
     contains post [RBRACE] = false ->
     resolve_response lim text = Returns v)
  /\ (forall lim, (2 <= max_nesting lim)%nat ->
        resolve_response lim example_response = Returns example_result).
Proof.
  split.
  - intros lim text pre body post v Hs Hd Hv Hpre Hpost.
    now rewrite (resolve_response_span _ _ _ _ _ Hs Hpre Hpost Hd).
  - intros [[|[|n]] k] Hn; cbn [max_nesting] in Hn; [lia|lia|].
    vm_compute. reflexivity.
Qed.

Lemma embedded_object_recovered_witness :
  resolve_response example_limits
    (py "Sure: {" ++ dq "terms" ++ py ":[]} Done.")
  = Returns (JObject [(py "terms", JArray [])]).
Proof.
  apply (proj1 embedded_object_recovered example_limits _
           (py "Sure: ") (dq "terms" ++ py ":[]") (py " Done."));
    vm_compute; reflexivity.
Defined.

(** ** Two objects in one response (C4) *)

(** C4, as stated, fails: the response below holds the two objects [{}] and
    [{}], apart and separated by prose that is not JSON; parsing the stripped
    text fails, the span of the regular expression covers both objects, and
    the resolver returns a value, since the span is itself an object in which
    the two sit inside a string. *)
Lemma two_objects_inside_a_string_resolve :
  let object := py "{}" in
  let prose := py " and " in
  let pre := py "Here: {" ++ dq "note" ++ py ": " ++ [DQUOTE] in
  let post := [DQUOTE] ++ py "} Thanks" in
  let text := pre ++ object ++ prose ++ object ++ post in
  strip text = text
  /\ json_loads example_limits object = Returns (JObject [])
  /\ json_loads example_limits prose = Raises JSONDecodeError
  /\ json_loads example_limits text = Raises JSONDecodeError
  /\ filter decodes_to_object (substrings text)
     = [py "{" ++ dq "note" ++ py ": " ++ dq "{} and {}" ++ py "}";
        object; object]
  /\ re_search_braces text
     = Some (py "{" ++ dq "note" ++ py ": " ++ dq "{} and {}" ++ py "}")
  /\ resolve_response example_limits text
     = Returns (JObject [(py "note", JString (py "{} and {}"))]).
Proof. vm_compute. repeat split; reflexivity. Qed.

(** C4, amended: the match of the regular expression is the text from the
    first opening brace to the last closing brace; and when parsing the
    stripped response fails, the response holds two JSON objects one after
    the other and no opening brace comes before the first, that span covers
    both objects, [json.loads] raises the decoding error on it and the
    resolver fails: with that decoding error when the first [json.loads]
    raised one, and with the exception of the first [json.loads] when it
    raised another (line 138 does not catch it). *)
Theorem fallback_span_covers_both_objects :
  (forall s json_str,
     re_search_braces s = Some json_str
     <-> exists pre body post,
           s = pre ++ LBRACE :: body ++ RBRACE :: post
           /\ json_str = LBRACE :: body ++ [RBRACE]
           /\ contains pre [LBRACE] = false
           /\ contains post [RBRACE] = false)
  /\ (forall lim text pre body1 mid body2 post v1 v2 e,
        let object1 := LBRACE :: body1 ++ [RBRACE] in
        let object2 := LBRACE :: body2 ++ [RBRACE] in
        strip text = pre ++ object1 ++ mid ++ object2 ++ post ->
        json_loads lim (strip text) = Raises e ->
        json_loads lim object1 = Returns v1 ->
        json_loads lim object2 = Returns v2 ->
        contains pre [LBRACE] = false ->
        exists extra rest,
          post = extra ++ rest
          /\ contains rest [RBRACE] = false
          /\ re_search_braces (strip text)
             = Some (object1 ++ mid ++ object2 ++ extra)
          /\ json_loads lim (object1 ++ mid ++ object2 ++ extra)
             = Raises JSONDecodeError
          /\ resolve_response lim text = Raises e).
Proof.
  split.
  - intros s json_str. split.
    + intros H.
      destruct (re_search_braces_some _ _ H)
        as (pre & body & post & -> & -> & Hpre & Hpost).
      exists pre, body, post. now rewrite !contains_char.
    + intros (pre & body & post & -> & -> & Hpre & Hpost).
      apply re_search_braces_span; now apply contains_char.
  - intros lim text pre body1 mid body2 post v1 v2 e object1 object2
           Hs Hd Hv1 _ Hpre.
    assert (Hsplit : exists extra rest body,
      post = extra ++ rest /\ contains rest [RBRACE] = false
      /\ object1 ++ mid ++ object2 ++ extra = LBRACE :: body ++ [RBRACE]).
    { subst object1 object2.
      destruct (in_dec N.eq_dec RBRACE post) as [Hin|Hout].
      - destruct (last_occurrence _ _ Hin) as (a & b & -> & Hb).
        exists (a ++ [RBRACE]), b,
          (body1 ++ [RBRACE] ++ mid ++ (LBRACE :: body2 ++ [RBRACE]) ++ a).
        split; [now rewrite <- app_assoc|].
        split; [now apply contains_char|].
        now list_norm.
      - exists [], post, (body1 ++ [RBRACE] ++ mid ++ LBRACE :: body2).
        split; [reflexivity|].
        split; [now apply contains_char|].
        rewrite app_nil_r. now list_norm. }
    destruct Hsplit as (extra & rest & body & -> & Hrest & Hspan).
    exists extra, rest. split; [reflexivity|]. split; [exact Hrest|].
    assert (Hs' : strip text = pre ++ LBRACE :: body ++ RBRACE :: rest).
    { rewrite Hs. f_equal.
      change (LBRACE :: body ++ RBRACE :: rest)
        with ((LBRACE :: body) ++ [RBRACE] ++ rest).
      rewrite (app_assoc (LBRACE :: body)).
      change ((LBRACE :: body) ++ [RBRACE]) with (LBRACE :: body ++ [RBRACE]).
      rewrite <- Hspan. now list_norm. }
    assert (Hnone : json_loads lim (LBRACE :: body ++ [RBRACE])
                    = Raises JSONDecodeError).
    { rewrite <- Hspan. apply json_loads_trailing with (v := v1);
        [exact Hv1|].
      apply (skip_ws_keeps LBRACE); [|reflexivity].
      rewrite !in_app_iff. right. left. now left. }
    split; [|split].
    + rewrite Hs', Hspan.
      apply re_search_braces_span; now apply contains_char.
    + now rewrite Hspan.
    + destruct (is_decode_error e) eqn:He.
      * destruct e; try discriminate.
        rewrite (resolve_response_span _ _ _ _ _ Hs' Hpre Hrest Hd).
        exact Hnone.
      * now apply resolve_response_passes.
Qed.

Lemma fallback_span_covers_both_objects_witness :
  let body1 := dq "a" ++ py ":1" in
  let body2 := dq "b" ++ py ":2" in
  let object1 := LBRACE :: body1 ++ [RBRACE] in
  let object2 := LBRACE :: body2 ++ [RBRACE] in
  let mid := py " and " in
  let text := object1 ++ mid ++ object2 in
  exists extra rest,
    [] = extra ++ rest
    /\ contains rest [RBRACE] = false
    /\ re_search_braces (strip text)
       = Some (object1 ++ mid ++ object2 ++ extra)
    /\ json_loads example_limits (object1 ++ mid ++ object2 ++ extra)
       = Raises JSONDecodeError
    /\ resolve_response example_limits text = Raises JSONDecodeError.
Proof.
  intros body1 body2 object1 object2 mid text.
  apply (proj2 fallback_span_covers_both_objects example_limits text
           [] body1 mid body2 [] (JObject [(py "a", JInt 1)])
           (JObject [(py "b", JInt 2)]) JSONDecodeError);
    vm_compute; reflexivity.
Defined.

(** ** A response without braces (C5) *)

(** C5, as stated, fails: the response [[]] has neither brace, it is JSON
    as it stands, and the resolver returns the empty list. *)
Lemma response_without_braces_resolves :
  contains (py "[]") [LBRACE] = false
  /\ contains (py "[]") [RBRACE] = false
  /\ resolve_response example_limits (py "[]") = Returns (JArray [])
  /\ snd (analyze_document_with_gemini true (fun _ => Returns (py "[]"))
            example_limits (py "protocol text") (py "key"))
     = Returns (JArray []).
Proof. vm_compute. repeat split; reflexivity. Qed.

(** C5, amended: a response that has no opening and no closing brace and on
    whose stripped text [json.loads] raises is never resolved.  When
    [json.loads] raises [JSONDecodeError], the resolver raises
    [ValueError("Could not extract valid JSON from Gemini response")]; when
    it raises another exception ([RecursionError] on arrays nested past the
    limit of the interpreter, the [ValueError] of [int()] on an integer over
    the digit limit), the resolver raises that exception.  In both cases
    [analyze_document_with_gemini] raises it again as an [Exception] with
    the text "Error analyzing document with Gemini: " in front. *)
Theorem response_without_braces_fails
    (lim : limits) (text : str) (e : exn) :
  contains text [LBRACE] = false ->
  contains text [RBRACE] = false ->
  json_loads lim (strip text) = Raises e ->
  let error :=
    if is_decode_error e
    then ValueError
           (Text (py "Could not extract valid JSON from Gemini response"))
    else e
  in
  resolve_response lim text = Raises error
  /\ forall generate_content document_text api_key,
       generate_content (gemini_call api_key document_text) = Returns text ->
       snd (analyze_document_with_gemini true generate_content lim
              document_text api_key)
       = Raises (Exception
                   (TextStr (py "Error analyzing document with Gemini: ")
                            error)).
Proof.
  intros Hl _ Hd error.
  assert (Hr : resolve_response lim text = Raises error).
  { subst error. destruct (is_decode_error e) eqn:He.
    - destruct e; try discriminate.
      unfold resolve_response. rewrite Hd, re_search_braces_none; [easy|].
      intros Hin. apply strip_incl in Hin. revert Hin.
      now apply contains_char.
    - now apply resolve_response_passes. }
  split; [exact Hr|].
  intros generate_content document_text api_key Hg.
  rewrite (analyze_document_with_gemini_response _ _ _ _ _ Hg).
  cbn [snd]. now rewrite Hr.
Qed.

Lemma response_without_braces_fails_witness :
  resolve_response example_limits (py "I could not read the document.")
  = Raises (ValueError
              (Text (py "Could not extract valid JSON from Gemini response"))).
Proof.
  apply (response_without_braces_fails example_limits
           (py "I could not read the document.") JSONDecodeError);
    vm_compute; reflexivity.
Defined.

(** Two responses without braces that raise in the first [json.loads]:
    prose, and 101 opening brackets. *)
Example responses_without_braces :
  resolve_response example_limits (py "No protocol found.")
  = Raises (ValueError
              (Text (py "Could not extract valid JSON from Gemini response")))
  /\ resolve_response example_limits (repeat LBRACKET 101)
     = Raises RecursionError.
Proof. vm_compute. repeat split; reflexivity. Qed.

(** ** The cost policy in the prompt (C2) *)

(** C2: whatever the document text, the prompt holds the cost policy word
    for word: as one piece of text, lines 77 to 93 of the source; in it the
    two sentences on the communicational cost (the value the document
    states, else the default "8 bits"), the sentences of the three
    priorities of the computational cost (the value the document states,
    else a predefined cost, else the default "1ms"), and between the second
    and the third priority the ten predefined operations, each on a line of
    its own with its cost: 0.0023ms, 2.226ms, 0.0288ms, 0.0046ms, 3.85ms,
    0.0147ms, 63.075ms, 2.011ms, 2ms and 4ms.  The prompt writes the
    operations with their symbols, the two elliptic-curve operations without
    a hyphen, and the extraction of a random number as "Extracting a Random
    Number (TExR)". *)
Theorem prompt_embeds_cost_policy (document_text : str) :
  let p := prompt document_text in
  contains p cost_resolution_policy = true
  /\ Forall (fun sentence => contains p sentence = true)
       [ py "If the document explicitly states a communicational cost (e.g., "
           ++ dq "requires X bits"
           ++ py "), use that value.";
         py "If no explicit cost is mentioned in the document, use a default of "
           ++ dq "8 bits"
           ++ py "." ]
  /\ Forall (fun sentence => contains p sentence = true)
       [ py "**Priority 1: Document Explicit Costs:** If the document explicitly states a computational cost for an operation (e.g., "
           ++ dq "Hash Function costs 0.0023 ms"
           ++ py "), use that value.";
         py "**Priority 2: Predefined Costs:** If no explicit cost is found in the document, check if the expression matches one of the following predefined operations and use its associated cost:";
         py "**Priority 3: Default Cost:** If neither an explicit document cost nor a matching predefined operation is found, use a default computational cost of "
           ++ dq "1ms"
           ++ py "." ]
  /\ Forall (fun line => contains p ([SPACE] ++ line ++ [LF]) = true)
       [ py "- Hash Function (TH): 0.0023ms";
         py "- Elliptic Curve Scalar Multiplication (TM): 2.226ms";
         py "- Elliptic Curve Addition (TA): 0.0288ms";
         py "- Symmetric Encryption (TS): 0.0046ms";
         py "- Modular Exponentiation (TE): 3.85ms";
         py "- Modular Multiplication (TMM): 0.0147ms";
         py "- Biometric Key Processing (TBio): 63.075ms";
         py "- Extracting a Random Number (TExR): 2.011ms";
         py "- Vector Addition Modulo (Tam): 2ms";
         py "- Matrix Multiplication Modulo (Tmm): 4ms" ].
Proof.
  intros p. subst p. unfold prompt.
  split; [|split; [|split]].
  - apply contains_app_l. vm_compute. reflexivity.
  - repeat constructor; apply contains_app_l; vm_compute; reflexivity.
  - repeat constructor; apply contains_app_l; vm_compute; reflexivity.
  - repeat constructor; apply contains_app_l; vm_compute; reflexivity.
Qed.

(** ** Text extraction (C6, C7, C8) *)

Lemma endswith_pdf_not_docx (s : str) :
  endswith s (py ".pdf") = true -> endswith s (py ".docx") = false.
Proof.
  unfold endswith.
  change (rev (py ".pdf")) with [102; 100; 112; 46].
  change (rev (py ".docx")) with [120; 99; 111; 100; 46].
  destruct (rev s) as [|x r]; [discriminate|]. cbn [startswith].
  intros H. apply andb_true_iff in H as [H _].
  apply N.eqb_eq in H as ->. reflexivity.
Qed.

Lemma endswith_doc_not_docx_pdf (s : str) :
  endswith s (py ".doc") = true ->
  endswith s (py ".docx") = false /\ endswith s (py ".pdf") = false.
Proof.
  unfold endswith.
  change (rev (py ".doc")) with [99; 111; 100; 46].
  change (rev (py ".pdf")) with [102; 100; 112; 46].
  change (rev (py ".docx")) with [120; 99; 111; 100; 46].
  destruct (rev s) as [|x r]; [discriminate|]. cbn [startswith].
  intros H. apply andb_true_iff in H as [H _].
  apply N.eqb_eq in H as ->. split; reflexivity.
Qed.

Lemma page_texts_filter (pages : list Page) (texts : list str) :
  Forall2 (fun page t => extract_text page = Returns t) pages texts ->
  page_texts pages = Returns (filter (fun t => negb (is_empty t)) texts).
Proof.
  induction 1 as [|page t pages texts Hp _ IH]; [reflexivity|].
  cbn [page_texts filter]. rewrite Hp. cbn [bind].
  destruct (negb (is_empty t)); [|exact IH].
  now rewrite IH.
Qed.

(** C6: for a file whose lowered name ends in .docx and that python-docx
    parses, [extract_text_from_file] returns the texts of the paragraphs, in
    the order of the document, joined by one newline each; paragraphs "A"
    and "B" give "A", a newline, "B". *)
Theorem docx_paragraphs_joined
    (lower : str -> str)
    (DocxDocument : FileStorage -> result Docx)
    (PdfReader : FileStorage -> result Reader)
    (file : FileStorage) (doc : Docx) :
  endswith (lower (filename file)) (py ".docx") = true ->
  DocxDocument file = Returns doc ->
  extract_text_from_file lower DocxDocument PdfReader file
  = Returns (join [LF] (map text (paragraphs doc)))
  /\ (map text (paragraphs doc) = [py "A"; py "B"] ->
      extract_text_from_file lower DocxDocument PdfReader file
      = Returns (py "A" ++ [LF] ++ py "B")).
Proof.
  intros Hext Hdoc.
  assert (H : extract_text_from_file lower DocxDocument PdfReader file
              = Returns (join [LF] (map text (paragraphs doc)))).
  { unfold extract_text_from_file. now rewrite Hext, Hdoc. }
  split; [exact H|]. intros Hab. now rewrite H, Hab.
Qed.

Lemma docx_paragraphs_joined_witness :
  let file := {| filename := py "Proposal.DOCX"; stream := [80; 75; 3; 4] |} in
  let doc := {| paragraphs := [ {| text := py "A" |}; {| text := py "B" |} ] |} in
  extract_text_from_file lower_ascii (fun _ => Returns doc)
    (fun _ => Raises (LibraryError (py "not a PDF"))) file
  = Returns (py "A" ++ [LF] ++ py "B").
Proof.
  intros file doc.
  apply (docx_paragraphs_joined lower_ascii (fun _ => Returns doc)
           (fun _ => Raises (LibraryError (py "not a PDF"))) file doc);
    reflexivity.
Defined.

(** C7: for a file whose lowered name ends in .pdf, that PyPDF2 reads and
    whose pages all give a text, [extract_text_from_file] returns the texts
    of the pages in page order, without those that are empty, joined by one
    newline each. *)
Theorem pdf_pages_joined
    (lower : str -> str)
    (DocxDocument : FileStorage -> result Docx)
    (PdfReader : FileStorage -> result Reader)
    (file : FileStorage) (reader : Reader) (texts : list str) :
  endswith (lower (filename file)) (py ".pdf") = true ->
  PdfReader file = Returns reader ->
  Forall2 (fun page t => extract_text page = Returns t) (pages reader) texts ->
  extract_text_from_file lower DocxDocument PdfReader file
  = Returns (join [LF] (filter (fun t => negb (is_empty t)) texts)).
Proof.
  intros Hext Hreader Hpages. unfold extract_text_from_file.
  rewrite (endswith_pdf_not_docx _ Hext), Hext, Hreader. cbn [bind].
  now rewrite (page_texts_filter _ _ Hpages).
Qed.

Lemma pdf_pages_joined_witness :
  let file := {| filename := py "paper.Pdf"; stream := [37; 80; 68; 70] |} in
  let reader :=
    {| pages := [ {| extract_text := Returns (py "Abstract") |};
                  {| extract_text := Returns [] |};
                  {| extract_text := Returns (py "Scheme") |} ] |} in
  extract_text_from_file lower_ascii
    (fun _ => Raises (LibraryError (py "not a docx"))) (fun _ => Returns reader)
    file
  = Returns (py "Abstract" ++ [LF] ++ py "Scheme").
Proof.
  intros file reader.
  apply (pdf_pages_joined lower_ascii
           (fun _ => Raises (LibraryError (py "not a docx")))
           (fun _ => Returns reader) file reader
           [py "Abstract"; []; py "Scheme"]).
  - reflexivity.
  - reflexivity.
  - repeat constructor.
Defined.

(** C8: for a file whose lowered name ends in .doc, whatever its bytes and
    whatever the document libraries would do with them,
    [extract_text_from_file] raises the exception that says .doc files are
    not supported; it returns no text. *)
Theorem doc_extraction_always_fails
    (lower : str -> str)
    (DocxDocument : FileStorage -> result Docx)
    (PdfReader : FileStorage -> result Reader)
    (file : FileStorage) :
  endswith (lower (filename file)) (py ".doc") = true ->
  extract_text_from_file lower DocxDocument PdfReader file
  = Raises (Exception (Text (py
      "Text extraction from .doc files is not directly supported. Please convert to .docx or .pdf."))).
Proof.
  intros Hext. unfold extract_text_from_file.
  destruct (endswith_doc_not_docx_pdf _ Hext) as [-> ->]. now rewrite Hext.
Qed.

Lemma doc_extraction_always_fails_witness :
  extract_text_from_file lower_ascii
    (fun _ => Returns {| paragraphs := [ {| text := py "A" |} ] |})
    (fun _ => Returns {| pages := [] |})
    {| filename := py "LEGACY.DOC"; stream := [208; 207; 17; 224] |}
  = Raises (Exception (Text (py
      "Text extraction from .doc files is not directly supported. Please convert to .docx or .pdf."))).
Proof.
  apply (doc_extraction_always_fails lower_ascii). reflexivity.
Defined.

(** ** Determinism (C9) *)

(** C9: the prompt sent to the provider is [prompt document_text], whatever
    the key, the provider and the limits of the interpreter; and two runs in
    one interpreter on the same document text whose providers answer with
    the same text return or raise the same thing, even under different keys
    and with different providers. *)
Theorem analysis_is_deterministic (document_text : str) :
  (forall generate_content lim api_key,
     map sent_prompt
         (fst (analyze_document_with_gemini true generate_content lim
                 document_text api_key))
     = [prompt document_text])
  /\ (forall generate_content1 generate_content2 lim api_key1 api_key2 text,
        generate_content1 (gemini_call api_key1 document_text)
        = Returns text ->
        generate_content2 (gemini_call api_key2 document_text)
        = Returns text ->
        snd (analyze_document_with_gemini true generate_content1 lim
               document_text api_key1)
        = snd (analyze_document_with_gemini true generate_content2 lim
                 document_text api_key2)).
Proof.
  split.
  - reflexivity.
  - intros g1 g2 lim k1 k2 text H1 H2.
    now rewrite (analyze_document_with_gemini_response _ _ _ _ _ H1),
                (analyze_document_with_gemini_response _ _ _ _ _ H2).
Qed.

Lemma analysis_is_deterministic_witness :
  snd (analyze_document_with_gemini true
         (fun call => if str_eqb (sent_api_key call) (py "key-1")
                      then Returns example_response
                      else Raises (LibraryError (py "invalid key")))
         example_limits (py "protocol text") (py "key-1"))
  = snd (analyze_document_with_gemini true
           (fun _ => Returns example_response)
           example_limits (py "protocol text") (py "key-2")).
Proof.
  apply (proj2 (analysis_is_deterministic (py "protocol text")) _ _
           example_limits _ _ example_response); reflexivity.
Defined.

(** ** An empty .docx (C10) *)

(** C10: for a request with a key and a file whose lowered name ends in
    .docx, that python-docx parses into a document with no paragraph,
    [extract_text_from_file] returns the empty string and
    [analyze_document] answers 400 with "Document is empty or could not be
    read", not 500; the provider is not asked.  ([str.lower] keeps the empty
    string empty.) *)
Theorem empty_docx_is_rejected_as_empty
    (lower : str -> str)
    (DocxDocument : FileStorage -> result Docx)
    (PdfReader : FileStorage -> result Reader)
    (genai_installed : bool)
    (generate_content : GenerateRequest -> result str) (lim : limits)
    (req : request) (file : FileStorage) (api_key : str) (doc : Docx) :
  lower [] = [] ->
  files_document req = Some file ->
  form_api_key req = Some api_key ->
  endswith (lower (filename file)) (py ".docx") = true ->
  DocxDocument file = Returns doc ->
  paragraphs doc = [] ->
  extract_text_from_file lower DocxDocument PdfReader file = Returns []
  /\ analyze_document lower DocxDocument PdfReader genai_installed
       generate_content lim req
     = (ErrorJson (Text (py "Document is empty or could not be read")), 400).
Proof.
  intros Hlower Hfile Hkey Hext Hdoc Hpar.
  assert (Hx : extract_text_from_file lower DocxDocument PdfReader file
               = Returns []).
  { unfold extract_text_from_file. rewrite Hext, Hdoc. cbn [bind reraise].
    now rewrite Hpar. }
  split; [exact Hx|].
  unfold analyze_document. rewrite Hfile, Hkey.
  destruct (filename file) as [|c name] eqn:Hname.
  { rewrite Hlower in Hext. discriminate. }
  cbn [is_empty]. unfold allowed_extensions. cbn [existsb].
  rewrite Hext, orb_true_r. cbn [negb orb]. now rewrite Hx.
Qed.

Lemma empty_docx_is_rejected_as_empty_witness :
  let file := {| filename := py "empty.docx"; stream := [80; 75; 3; 4] |} in
  let req := {| files_document := Some file;
                form_api_key := Some (py "key") |} in
  extract_text_from_file lower_ascii
    (fun _ => Returns {| paragraphs := [] |})
    (fun _ => Raises (LibraryError (py "not a PDF"))) file
  = Returns []
  /\ analyze_document lower_ascii
       (fun _ => Returns {| paragraphs := [] |})
       (fun _ => Raises (LibraryError (py "not a PDF")))
       true (fun _ => Returns example_response) example_limits req
     = (ErrorJson (Text (py "Document is empty or could not be read")), 400).
Proof.
  intros file req.
  apply (empty_docx_is_rejected_as_empty lower_ascii
           (fun _ => Returns {| paragraphs := [] |})
           (fun _ => Raises (LibraryError (py "not a PDF")))
           true (fun _ => Returns example_response) example_limits req file
           (py "key")
           {| paragraphs := [] |}); reflexivity.
Defined.

(** * Further properties of the route *)

(** ** Whitespace around a text *)

Lemma lstrip_blank (s : str) : lstrip s = [] <-> blank s = true.
Proof.
  induction s as [|x s IH]; cbn [lstrip blank forallb]; [tauto|].
  destruct (isspace x); cbn [andb]; [exact IH|]. split; discriminate.
Qed.

Lemma lstrip_head (s t : str) (c : codepoint) :
  lstrip s = c :: t -> isspace c = false.
Proof.
  induction s as [|x s IH]; cbn [lstrip]; [discriminate|].
  destruct (isspace x) eqn:E; [exact IH|]. now intros [= <- _].
Qed.

Lemma lstrip_fixed (s : str) : lstrip (lstrip s) = lstrip s.
Proof.
  destruct (lstrip s) as [|c t] eqn:E; [reflexivity|].
  cbn [lstrip]. now rewrite (lstrip_head _ _ _ E).
Qed.

Lemma lstrip_app_blank (a s : str) :
  blank a = true -> lstrip (a ++ s) = lstrip s.
Proof.
  induction a as [|x a IH]; cbn [blank forallb app lstrip]; [easy|].
  intros H. apply andb_true_iff in H as [-> H]. now apply IH.
Qed.

Lemma lstrip_app_fixed (a r : str) :
  lstrip r = r -> lstrip (a ++ r) = lstrip a ++ r.
Proof.
  intros Hr. induction a as [|x a IH]; cbn [app lstrip]; [exact Hr|].
  now destruct (isspace x).
Qed.

Lemma blank_app (a b : str) : blank (a ++ b) = blank a && blank b.
Proof. apply forallb_app. Qed.

Lemma blank_rev (s : str) : blank (rev s) = blank s.
Proof.
  induction s as [|x s IH]; [reflexivity|].
  cbn [rev]. rewrite blank_app, IH. cbn [blank forallb].
  now rewrite andb_true_r, andb_comm.
Qed.

Lemma rstrip_app_blank (s b : str) :
  blank b = true -> rstrip (s ++ b) = rstrip s.
Proof.
  intros H. unfold rstrip. rewrite rev_app_distr.
  now rewrite lstrip_app_blank by now rewrite blank_rev.
Qed.

Lemma rstrip_app_fixed (x p : str) :
  rstrip x = x -> rstrip (x ++ p) = x ++ rstrip p.
Proof.
  unfold rstrip. intros Hx. rewrite rev_app_distr.
  rewrite lstrip_app_fixed.
  - now rewrite rev_app_distr, rev_involutive.
  - rewrite <- Hx at 2. now rewrite rev_involutive.
Qed.

Lemma rstrip_blank (s : str) : rstrip s = [] <-> blank s = true.
Proof.
  unfold rstrip. rewrite <- blank_rev, <- lstrip_blank.
  split; intros H; [|now rewrite H].
  apply (f_equal (@rev _)) in H. now rewrite rev_involutive in H.
Qed.

Lemma strip_blank (s : str) : strip s = [] <-> blank s = true.
Proof.
  unfold strip. rewrite rstrip_blank. split.
  - intros H. apply lstrip_blank. apply lstrip_blank in H.
    now rewrite lstrip_fixed in H.
  - intros H. apply lstrip_blank in H. now rewrite H.
Qed.

Lemma lstrip_app_cons (s b t : str) (c : codepoint) :
  lstrip s = c :: t -> lstrip (s ++ b) = c :: t ++ b.
Proof.
  induction s as [|x s IH]; cbn [lstrip app]; [discriminate|].
  destruct (isspace x); [exact IH|]. now intros [= <- <-].
Qed.

Lemma strip_surrounded (a s b : str) :
  blank a = true -> blank b = true -> strip (a ++ s ++ b) = strip s.
Proof.
  intros Ha Hb. unfold strip. rewrite (lstrip_app_blank _ _ Ha).
  destruct (lstrip s) as [|c t] eqn:E.
  - apply lstrip_blank in E. rewrite (lstrip_app_blank _ _ E).
    apply lstrip_blank in Hb as ->. reflexivity.
  - rewrite (lstrip_app_cons _ b _ _ E).
    change (c :: t ++ b) with ((c :: t) ++ b).
    now apply rstrip_app_blank.
Qed.

Lemma is_ws_isspace (c : codepoint) : is_ws c = true -> isspace c = true.
Proof.
  unfold is_ws, SPACE, TAB, LF, CR. intros H.
  repeat (apply orb_true_iff in H as [H|H]);
    apply N.eqb_eq in H; subst c; reflexivity.
Qed.

Lemma rstrip_keeps (s : str) :
  rstrip s <> [] -> skip_ws (rstrip s) <> [].
Proof.
  unfold rstrip. destruct (lstrip (rev s)) as [|c t] eqn:E; [easy|].
  intros _. apply (skip_ws_keeps c).
  - apply in_rev. rewrite rev_involutive. now left.
  - apply lstrip_head in E. destruct (is_ws c) eqn:Ec; [|reflexivity].
    apply is_ws_isspace in Ec. congruence.
Qed.

Lemma rstrip_incl (c : codepoint) (s : str) : In c (rstrip s) -> In c s.
Proof.
  unfold rstrip. intros H. apply in_rev in H. apply lstrip_incl in H.
  now apply in_rev.
Qed.

(** ** What the resolver makes of a response *)

Lemma lstrip_cons_keep (c : codepoint) (t : str) :
  isspace c = false -> lstrip (c :: t) = c :: t.
Proof. intros H. cbn [lstrip]. now rewrite H. Qed.

Lemma strip_object_then (body prose : str) :
  strip ((LBRACE :: body ++ [RBRACE]) ++ prose)
  = (LBRACE :: body ++ [RBRACE]) ++ rstrip prose.
Proof.
  unfold strip.
  change ((LBRACE :: body ++ [RBRACE]) ++ prose)
    with (LBRACE :: (body ++ [RBRACE]) ++ prose).
  rewrite lstrip_cons_keep by reflexivity.
  change (LBRACE :: (body ++ [RBRACE]) ++ prose)
    with ((LBRACE :: body ++ [RBRACE]) ++ prose).
  apply rstrip_app_fixed. unfold rstrip.
  change (LBRACE :: body ++ [RBRACE]) with ((LBRACE :: body) ++ [RBRACE]).
  rewrite rev_app_distr.
  change (rev [RBRACE] ++ rev (LBRACE :: body))
    with (RBRACE :: rev (LBRACE :: body)).
  rewrite lstrip_cons_keep by reflexivity.
  change (RBRACE :: rev (LBRACE :: body))
    with (rev [RBRACE] ++ rev (LBRACE :: body)).
  now rewrite <- rev_app_distr, rev_involutive.
Qed.

Lemma json_loads_bad_start (lim : limits) (c : codepoint) (s : str) :
  begins_json c = false -> json_loads lim (c :: s) = Raises JSONDecodeError.
Proof.
  unfold begins_json. intros H.
  do 10 (apply orb_false_iff in H as [H ?]).
  unfold json_loads.
  destruct (startswith (c :: s) [65279]); [reflexivity|].
  cbn [skip_ws]. rewrite H. cbn [scan_once].
  repeat match goal with E : (c =? _) = false |- _ => rewrite E; clear E end.
  assert (H48 : (c =? 48) = false).
  { destruct (N.eqb_spec c 48) as [->|]; [discriminate|reflexivity]. }
  unfold scan_atom, match_number, match_signed_integer.
  change (py "null") with [110; 117; 108; 108].
  change (py "true") with [116; 114; 117; 101].
  change (py "false") with [102; 97; 108; 115; 101].
  change (py "NaN") with [78; 97; 78].
  change (py "Infinity") with [73; 110; 102; 105; 110; 105; 116; 121].
  change (py "-Infinity") with [45; 73; 110; 102; 105; 110; 105; 116; 121].
  cbn [startswith match_integer].
  unfold MINUS in *.
  repeat match goal with E : (c =? _) = false |- _ => rewrite E end.
  repeat match goal with E : is_digit c = false |- _ => rewrite E end.
  reflexivity.
Qed.

Lemma dotstar_rbrace_in (s : str) : In RBRACE s -> dotstar_rbrace s <> None.
Proof.
  intros H. destruct (last_occurrence _ _ H) as (a & b & -> & Hb).
  now rewrite dotstar_rbrace_last.
Qed.

Lemma re_search_braces_ordered (a b c : str) :
  re_search_braces (a ++ LBRACE :: b ++ RBRACE :: c) <> None.
Proof.
  assert (Hin : forall a, In RBRACE (a ++ LBRACE :: b ++ RBRACE :: c)).
  { intros a'. rewrite in_app_iff. right. right.
    rewrite in_app_iff. right. now left. }
  induction a as [|x a IH]; cbn [app re_search_braces].
  - change (LBRACE =? LBRACE) with true. cbv iota.
    destruct (dotstar_rbrace (b ++ RBRACE :: c)) eqn:E; [discriminate|].
    exfalso. revert E. apply dotstar_rbrace_in.
    rewrite in_app_iff. right. now left.
  - destruct (x =? LBRACE); [|exact IH].
    destruct (dotstar_rbrace (a ++ LBRACE :: b ++ RBRACE :: c)) eqn:E;
      [discriminate|].
    exfalso. revert E. apply dotstar_rbrace_in, Hin.
Qed.

(** X1: whitespace around a response never changes what the resolver does
    with it, whatever the limits of the interpreter. *)
Theorem resolver_ignores_surrounding_whitespace
    (lim : limits) (a text b : str) :
  blank a = true -> blank b = true ->
  resolve_response lim (a ++ text ++ b) = resolve_response lim text.
Proof.
  intros Ha Hb. unfold resolve_response. now rewrite strip_surrounded.
Qed.

Lemma resolver_ignores_surrounding_whitespace_witness :
  resolve_response example_limits ([LF; SPACE] ++ py "[1]" ++ [TAB; 160; LF])
  = resolve_response example_limits (py "[1]").
Proof.
  apply (resolver_ignores_surrounding_whitespace example_limits
           [LF; SPACE] (py "[1]") [TAB; 160; LF]); reflexivity.
Defined.

(** X2: a response that is a JSON object followed by text without a closing
    brace resolves to the value of the object, whether the text is blank
    (the whole response parses) or not (the first [json.loads] raises the
    decoding error on the extra text and the fallback finds the object).
    The object is one that [json.loads] decodes under the limits of the
    interpreter. *)
Theorem object_then_prose_resolves
    (lim : limits) (body prose : str) (v : json) :
  json_loads lim (LBRACE :: body ++ [RBRACE]) = Returns v ->
  contains prose [RBRACE] = false ->
  resolve_response lim ((LBRACE :: body ++ [RBRACE]) ++ prose) = Returns v.
Proof.
  intros Hv Hprose.
  assert (Hs := strip_object_then body prose).
  destruct (rstrip prose) as [|p ps] eqn:Ep.
  - unfold resolve_response. rewrite Hs, app_nil_r. now rewrite Hv.
  - assert (Hd : json_loads lim
                   (strip ((LBRACE :: body ++ [RBRACE]) ++ prose))
                 = Raises JSONDecodeError).
    { rewrite Hs. apply json_loads_trailing with (v := v); [exact Hv|].
      rewrite <- Ep. apply rstrip_keeps. now rewrite Ep. }
    assert (Hs' : strip ((LBRACE :: body ++ [RBRACE]) ++ prose)
                  = [] ++ LBRACE :: body ++ RBRACE :: p :: ps).
    { rewrite Hs. cbn [app]. now rewrite <- app_assoc. }
    rewrite (resolve_response_span _ _ _ _ _ Hs' eq_refl);
      [exact Hv| |exact Hd].
    apply contains_char. intros Hin. rewrite <- Ep in Hin.
    apply rstrip_incl in Hin. revert Hin. now apply contains_char.
Qed.

Lemma object_then_prose_resolves_witness :
  resolve_response example_limits
    ((LBRACE :: (dq "terms" ++ py ":[]") ++ [RBRACE])
     ++ py " I hope this helps!")
  = Returns (JObject [(py "terms", JArray [])]).
Proof.
  apply (object_then_prose_resolves example_limits (dq "terms" ++ py ":[]")
           (py " I hope this helps!")); vm_compute; reflexivity.
Defined.

(** X3: when the stripped response starts with a character no JSON text
    starts with, holds an object that [json.loads] decodes under the limits
    of the interpreter, has no opening brace before the object and no
    closing brace after it, the resolver returns the value of the object:
    the first [json.loads] raises the decoding error at the first character,
    before any limit can be met.  A response in a Markdown code fence is
    such a response. *)
Theorem prose_then_object_resolves
    (lim : limits) (text pre body post : str) (c : codepoint) (v : json) :
  strip text = (c :: pre) ++ (LBRACE :: body ++ [RBRACE]) ++ post ->
  begins_json c = false ->
  contains (c :: pre) [LBRACE] = false ->
  contains post [RBRACE] = false ->
  json_loads lim (LBRACE :: body ++ [RBRACE]) = Returns v ->
  resolve_response lim text = Returns v.
Proof.
  intros Hs Hc Hpre Hpost Hv.
  assert (Hd : json_loads lim (strip text) = Raises JSONDecodeError).
  { rewrite Hs. now apply json_loads_bad_start. }
  assert (Hs' : strip text = (c :: pre) ++ LBRACE :: body ++ RBRACE :: post).
  { rewrite Hs. f_equal. cbn [app]. now rewrite <- app_assoc. }
  now rewrite (resolve_response_span _ _ _ _ _ Hs' Hpre Hpost Hd).
Qed.

Lemma prose_then_object_resolves_witness :
  resolve_response example_limits
    (py "```json" ++ [LF]
     ++ (LBRACE :: (dq "terms" ++ py ":[]") ++ [RBRACE])
     ++ [LF] ++ py "```" ++ [LF])
  = Returns (JObject [(py "terms", JArray [])]).
Proof.
  apply (prose_then_object_resolves example_limits _ (py "``json" ++ [LF])
           (dq "terms" ++ py ":[]") ([LF] ++ py "```") 96);
    vm_compute; reflexivity.
Defined.

(** X4: the resolver raises one of four exceptions: the decoding error of
    [json.loads] (on the span), the [ValueError] of line 146, and the two
    exceptions [json.loads] raises at the limits of the interpreter,
    [RecursionError] and the [ValueError] of [int()].  It raises the
    [ValueError] of line 146 exactly when the first [json.loads] raises the
    decoding error and the stripped response has no opening brace with a
    closing brace somewhere after it (braces in the wrong order make no
    span).  An exception of the first [json.loads] other than the decoding
    error is raised as it is, span or no span.  And in an interpreter
    without a digit limit the [ValueError] of [int()] is never raised. *)
Theorem resolver_failures (lim : limits) (text : str) :
  let no_json :=
    ValueError (Text (py "Could not extract valid JSON from Gemini response"))
  in
  (forall e, resolve_response lim text = Raises e ->
             e = JSONDecodeError \/ e = no_json
             \/ e = RecursionError \/ e = IntegerValueError)
  /\ (resolve_response lim text = Raises no_json
      <-> json_loads lim (strip text) = Raises JSONDecodeError
          /\ forall a b c, strip text <> a ++ LBRACE :: b ++ RBRACE :: c)
  /\ (forall e, json_loads lim (strip text) = Raises e ->
                is_decode_error e = false ->
                resolve_response lim text = Raises e)
  /\ (int_max_str_digits lim = O ->
      resolve_response lim text <> Raises IntegerValueError).
Proof.
  intros no_json.
  assert (Hset : forall e, resolve_response lim text = Raises e ->
            e = JSONDecodeError \/ e = no_json \/ e = RecursionError
            \/ (e = IntegerValueError /\ int_max_str_digits lim <> O)).
  { intros e. unfold resolve_response.
    destruct (json_loads lim (strip text)) as [w|e0] eqn:E0; [discriminate|].
    assert (H0 := json_loads_raises _ _ _ E0).
    destruct e0; try (intros [= <-]; tauto).
    destruct (re_search_braces (strip text)) as [m|];
      [|intros [= <-]; tauto].
    destruct (json_loads lim m) as [w|e1] eqn:E1; cbn [bind];
      [discriminate|].
    intros [= <-]. apply json_loads_raises in E1. tauto. }
  split; [|split; [|split]].
  - intros e H. apply Hset in H. tauto.
  - unfold resolve_response.
    destruct (json_loads lim (strip text)) as [w|e0] eqn:E0.
    { split; [discriminate|]. now intros [[=] _]. }
    assert (H0 := json_loads_raises _ _ _ E0).
    destruct e0;
      try (split; [intros [= ->]|intros [[=] _]];
           destruct H0 as [H0|[H0|[H0 _]]]; discriminate).
    destruct (re_search_braces (strip text)) as [m|] eqn:Em.
    + destruct (re_search_braces_some _ _ Em)
        as (pre & body & post & Hs & -> & _).
      split.
      * destruct (json_loads lim (LBRACE :: body ++ [RBRACE]))
          as [w|e1] eqn:E1; cbn [bind]; [discriminate|].
        intros [= ->]. apply json_loads_raises in E1.
        destruct E1 as [E1|[E1|[E1 _]]]; discriminate.
      * intros [_ H]. now destruct (H pre body post).
    + split; [|reflexivity]. intros _. split; [reflexivity|].
      intros a b c Hs. rewrite Hs in Em.
      now destruct (re_search_braces_ordered a b c).
  - intros e. apply resolve_response_passes.
  - intros Hz H. apply Hset in H.
    destruct H as [H|[H|[H|[_ H]]]]; try discriminate. now apply H.
Qed.

Lemma resolver_failures_witness :
  resolve_response example_limits
    (repeat LBRACKET 101 ++ py "{" ++ dq "a" ++ py ":1}")
  = Raises RecursionError.
Proof.
  apply (proj1 (proj2 (proj2 (resolver_failures example_limits
           (repeat LBRACKET 101 ++ py "{" ++ dq "a" ++ py ":1}")))));
    vm_compute; reflexivity.
Defined.

Lemma object_members_object (lim : limits) (f : nat) :
  forall d pairs s v r, object_members lim f d pairs s = Parsed v r ->
  exists members, v = JObject members.
Proof.
  induction f as [|f IH]; intros d pairs s v r H; [discriminate|].
  cbn [object_members] in H.
  destruct (scanstring (S (length s)) s) as [key r0| |?|]; try discriminate.
  destruct (skip_ws r0) as [|c1 r1]; [discriminate|].
  destruct (c1 =? COLON); [|discriminate].
  destruct (scan_once lim f d (skip_ws r1)) as [value r2| |?|];
    try discriminate.
  destruct (skip_ws r2) as [|c3 r3]; [discriminate|].
  destruct (c3 =? RBRACE); [injection H as <- _; eauto|].
  destruct (c3 =? COMMA); [|discriminate].
  destruct (skip_ws r3) as [|c4 r4]; [discriminate|].
  destruct (c4 =? DQUOTE); [|discriminate].
  now apply IH in H.
Qed.

Lemma json_loads_brace_object (lim : limits) (s : str) (v : json) :
  json_loads lim (LBRACE :: s) = Returns v ->
  exists members, v = JObject members.
Proof.
  unfold json_loads.
  change (startswith (LBRACE :: s) [65279]) with false.
  change (skip_ws (LBRACE :: s)) with (LBRACE :: s). cbv iota.
  cbn [scan_once]. change (LBRACE =? DQUOTE) with false.
  change (LBRACE =? LBRACE) with true. cbv iota.
  destruct (max_nesting lim) as [|d]; [discriminate|].
  destruct (skip_ws s) as [|c1 t1]; [discriminate|].
  destruct (c1 =? RBRACE).
  { destruct (skip_ws t1); [|discriminate]. intros [= <-]. eauto. }
  destruct (c1 =? DQUOTE); [|discriminate].
  destruct (object_members _ _ _ [] t1) as [w r| |?|] eqn:E;
    try discriminate.
  destruct (skip_ws r); [|discriminate]. intros [= <-].
  now apply object_members_object in E.
Qed.

(** X5: a value that comes out of the fallback is always a dict: when the
    first [json.loads] raises on the stripped response, whatever the
    resolver returns is an object, while a response that parses as it stands
    is returned whatever its kind. *)
Theorem fallback_returns_objects
    (lim : limits) (text : str) (e : exn) (v : json) :
  json_loads lim (strip text) = Raises e ->
  resolve_response lim text = Returns v ->
  exists members, v = JObject members.
Proof.
  unfold resolve_response. intros ->.
  destruct e; try discriminate.
  destruct (re_search_braces (strip text)) as [m|] eqn:Em; [|discriminate].
  destruct (re_search_braces_some _ _ Em) as (_ & body & _ & _ & -> & _).
  destruct (json_loads lim _) as [w|] eqn:E; [|discriminate].
  intros [= <-]. now apply json_loads_brace_object in E.
Qed.

Lemma fallback_returns_objects_witness :
  exists members, example_result = JObject members.
Proof.
  apply (fallback_returns_objects example_limits example_response
           JSONDecodeError);
    vm_compute; reflexivity.
Defined.
(** ** Pieces of a text *)

Lemma startswith_iff (s p : str) :
  startswith s p = true <-> exists b, s = p ++ b.
Proof.
  revert s. induction p as [|y p IH]; intros s; cbn [startswith app].
  - split; [intros _; now exists s | reflexivity].
  - destruct s as [|x s]; [split; [discriminate | now intros (b & [=])]|].
    rewrite andb_true_iff, N.eqb_eq, IH. split.
    + intros (-> & b & ->). now exists b.
    + intros (b & [= -> ->]). split; [reflexivity | now exists b].
Qed.

Lemma contains_iff (s p : str) :
  contains s p = true <-> exists a b, s = a ++ p ++ b.
Proof.
  induction s as [|x s IH]; cbn [contains]; rewrite orb_true_iff,
    startswith_iff.
  - split.
    + intros [(b & H)|[=]]. now exists [], b.
    + intros (a & b & H). left. destruct a; [now exists b|discriminate].
  - rewrite IH. split.
    + intros [(b & H)|(a & b & ->)]; [now exists [], b|].
      now exists (x :: a), b.
    + intros ([|y a] & b & H); [left; now exists b|].
      injection H as -> ->. right. now exists a, b.
Qed.

Lemma contains_middle (a p b : str) : contains (a ++ p ++ b) p = true.
Proof. apply contains_iff. now exists a, b. Qed.

Lemma contains_trans (s p q : str) :
  contains s p = true -> contains p q = true -> contains s q = true.
Proof.
  rewrite !contains_iff. intros (a & b & ->) (a' & b' & ->).
  exists (a ++ a'), (b' ++ b). now rewrite <- !app_assoc.
Qed.

Lemma join_cons (sep p q : str) (rest : list str) :
  join sep (p :: q :: rest) = p ++ sep ++ join sep (q :: rest).
Proof. reflexivity. Qed.

Lemma join_contains (sep x : str) (parts : list str) :
  In x parts -> contains (join sep parts) x = true.
Proof.
  induction parts as [|p [|q rest] IH].
  - easy.
  - intros [->|[]]. cbn [join]. apply contains_iff. exists [], [].
    now rewrite app_nil_r.
  - intros [->|H]; rewrite join_cons.
    + apply (contains_middle []).
    + apply contains_iff. apply IH, contains_iff in H as (a & b & ->).
      exists (p ++ sep ++ a), b. now rewrite <- !app_assoc.
Qed.

Lemma blank_join (parts : list str) :
  blank (join [LF] parts) = forallb blank parts.
Proof.
  induction parts as [|p [|q rest] IH].
  - reflexivity.
  - cbn [join forallb]. now rewrite andb_true_r.
  - rewrite join_cons, !blank_app, IH. reflexivity.
Qed.

Lemma blank_filter (texts : list str) :
  forallb blank (filter (fun t => negb (is_empty t)) texts)
  = forallb blank texts.
Proof.
  induction texts as [|[|c t] texts IH]; [reflexivity|exact IH|].
  cbn [filter is_empty negb forallb]. now rewrite IH.
Qed.

Lemma join_nil (sep : str) (parts : list str) :
  Forall (fun t => t <> []) parts -> join sep parts = [] -> parts = [].
Proof.
  destruct parts as [|p [|q rest]]; [reflexivity| |];
    intros H; inversion_clear H as [|? ? Hp _].
  - cbn [join]. congruence.
  - rewrite join_cons. destruct p; [congruence|discriminate].
Qed.

(** ** Extraction *)

Lemma page_texts_raises (good rest : list Page) (bad : Page)
    (texts : list str) (e : exn) :
  Forall2 (fun page t => extract_text page = Returns t) good texts ->
  extract_text bad = Raises e ->
  page_texts (good ++ bad :: rest) = Raises e.
Proof.
  intros Hgood Hbad.
  induction Hgood as [|page t good texts Hp _ IH]; cbn [app page_texts].
  - now rewrite Hbad.
  - rewrite Hp. cbn [bind]. destruct (negb (is_empty t)); [|exact IH].
    now rewrite IH.
Qed.

Lemma extract_returns_extension
    (lower : str -> str)
    (DocxDocument : FileStorage -> result Docx)
    (PdfReader : FileStorage -> result Reader)
    (file : FileStorage) (t : str) :
  extract_text_from_file lower DocxDocument PdfReader file = Returns t ->
  endswith (lower (filename file)) (py ".docx") = true
  \/ endswith (lower (filename file)) (py ".pdf") = true.
Proof.
  unfold extract_text_from_file.
  destruct (endswith _ (py ".docx")); [now left|].
  destruct (endswith _ (py ".pdf")); [now right|].
  now destruct (endswith _ (py ".doc")).
Qed.

Lemma reraise_exception {A : Type} (prefix : string) (r : result A) (e : exn) :
  reraise prefix r = Raises e ->
  exists cause, r = Raises cause
                /\ e = Exception (TextStr (py prefix) cause).
Proof.
  destruct r as [a|cause]; cbn [reraise]; [discriminate|].
  intros [= <-]. now exists cause.
Qed.

(** X6: [extract_text_from_file] returns a text only for a name that ends,
    lowered, in .docx or .pdf, and whatever it raises is an [Exception]:
    the errors of python-docx and PyPDF2 never leave it under their own
    class. *)
Theorem extraction_outcomes
    (lower : str -> str)
    (DocxDocument : FileStorage -> result Docx)
    (PdfReader : FileStorage -> result Reader)
    (file : FileStorage) :
  (forall t,
     extract_text_from_file lower DocxDocument PdfReader file = Returns t ->
     endswith (lower (filename file)) (py ".docx") = true
     \/ endswith (lower (filename file)) (py ".pdf") = true)
  /\ (forall e,
        extract_text_from_file lower DocxDocument PdfReader file = Raises e ->
        exists args, e = Exception args).
Proof.
  split; [intros t; apply extract_returns_extension|].
  intros e. unfold extract_text_from_file.
  destruct (endswith _ (py ".docx")).
  { intros H. apply reraise_exception in H as (c & _ & ->). eauto. }
  destruct (endswith _ (py ".pdf")).
  { intros H. apply reraise_exception in H as (c & _ & ->). eauto. }
  destruct (endswith _ (py ".doc")); intros [= <-]; eauto.
Qed.

Lemma extraction_outcomes_witness :
  exists args,
    Exception (TextStr (py "Error extracting text from .docx file: ")
                       (LibraryError (py "Package not found")))
    = Exception args.
Proof.
  apply (proj2 (extraction_outcomes lower_ascii
                  (fun _ => Raises (LibraryError (py "Package not found")))
                  (fun _ => Returns {| pages := [] |})
                  {| filename := py "broken.docx"; stream := [0] |})).
  reflexivity.
Defined.

(** X7: when a page of a PDF raises while its text is extracted, the
    extraction of the file raises, with the exception of the first such page
    after the text "Error extracting text from .pdf file: "; the texts of the
    pages before it are not returned, and the pages after it do not
    matter. *)
Theorem pdf_page_failure_fails_extraction
    (lower : str -> str)
    (DocxDocument : FileStorage -> result Docx)
    (PdfReader : FileStorage -> result Reader)
    (file : FileStorage) (reader : Reader)
    (good rest : list Page) (bad : Page) (texts : list str) (e : exn) :
  endswith (lower (filename file)) (py ".pdf") = true ->
  PdfReader file = Returns reader ->
  pages reader = good ++ bad :: rest ->
  Forall2 (fun page t => extract_text page = Returns t) good texts ->
  extract_text bad = Raises e ->
  extract_text_from_file lower DocxDocument PdfReader file
  = Raises (Exception
              (TextStr (py "Error extracting text from .pdf file: ") e)).
Proof.
  intros Hext Hreader Hpages Hgood Hbad. unfold extract_text_from_file.
  rewrite (endswith_pdf_not_docx _ Hext), Hext, Hreader. cbn [bind].
  now rewrite Hpages, (page_texts_raises _ _ _ _ _ Hgood Hbad).
Qed.

Lemma pdf_page_failure_fails_extraction_witness :
  let reader :=
    {| pages := [ {| extract_text := Returns (py "Abstract") |};
                  {| extract_text := Raises (LibraryError (py "bad stream")) |};
                  {| extract_text := Returns (py "Scheme") |} ] |} in
  extract_text_from_file lower_ascii
    (fun _ => Raises (LibraryError (py "not a docx")))
    (fun _ => Returns reader)
    {| filename := py "paper.pdf"; stream := [37; 80; 68; 70] |}
  = Raises (Exception
              (TextStr (py "Error extracting text from .pdf file: ")
                       (LibraryError (py "bad stream")))).
Proof.
  intros reader.
  apply (pdf_page_failure_fails_extraction lower_ascii
           (fun _ => Raises (LibraryError (py "not a docx")))
           (fun _ => Returns reader)
           {| filename := py "paper.pdf"; stream := [37; 80; 68; 70] |}
           reader
           [ {| extract_text := Returns (py "Abstract") |} ]
           [ {| extract_text := Returns (py "Scheme") |} ]
           {| extract_text := Raises (LibraryError (py "bad stream")) |}
           [py "Abstract"]).
  - reflexivity.
  - reflexivity.
  - reflexivity.
  - repeat constructor.
  - reflexivity.
Defined.

(** X8: no paragraph of a .docx is lost on the way to the provider: the text
    of every paragraph occurs in the extracted text, hence in the prompt
    built from it; and the extracted text is blank exactly when every
    paragraph is. *)
Theorem docx_keeps_every_paragraph
    (lower : str -> str)
    (DocxDocument : FileStorage -> result Docx)
    (PdfReader : FileStorage -> result Reader)
    (file : FileStorage) (doc : Docx) :
  endswith (lower (filename file)) (py ".docx") = true ->
  DocxDocument file = Returns doc ->
  exists document_text,
    extract_text_from_file lower DocxDocument PdfReader file
    = Returns document_text
    /\ (forall para, In para (paragraphs doc) ->
          contains document_text (text para) = true
          /\ contains (prompt document_text) (text para) = true)
    /\ blank document_text
       = forallb (fun para => blank (text para)) (paragraphs doc).
Proof.
  intros Hext Hdoc. exists (join [LF] (map text (paragraphs doc))).
  split; [unfold extract_text_from_file; now rewrite Hext, Hdoc|].
  split.
  - intros para Hin.
    assert (H : contains (join [LF] (map text (paragraphs doc))) (text para)
                = true) by now apply join_contains, in_map.
    split; [exact H|].
    apply (contains_trans _ (join [LF] (map text (paragraphs doc))));
      [|exact H].
    unfold prompt. apply contains_middle.
  - rewrite blank_join.
    induction (paragraphs doc) as [|para paras IH]; [reflexivity|].
    cbn [map forallb]. now rewrite IH.
Qed.

Lemma docx_keeps_every_paragraph_witness :
  let doc := {| paragraphs := [ {| text := py "Ui sends h(IDi)" |};
                                {| text := [] |};
                                {| text := py "GWN checks SK" |} ] |} in
  exists document_text,
    extract_text_from_file lower_ascii (fun _ => Returns doc)
      (fun _ => Raises (LibraryError (py "not a PDF")))
      {| filename := py "scheme.docx"; stream := [80; 75] |}
    = Returns document_text
    /\ (forall para, In para (paragraphs doc) ->
          contains document_text (text para) = true
          /\ contains (prompt document_text) (text para) = true)
    /\ blank document_text
       = forallb (fun para => blank (text para)) (paragraphs doc).
Proof.
  intros doc.
  apply (docx_keeps_every_paragraph lower_ascii (fun _ => Returns doc)
           (fun _ => Raises (LibraryError (py "not a PDF")))
           {| filename := py "scheme.docx"; stream := [80; 75] |} doc);
    reflexivity.
Defined.

(** X9: for a PDF that is read, the extracted text is empty exactly when
    every page gives the empty text, and blank exactly when every page gives
    a blank text. *)
Theorem pdf_text_empty_or_blank
    (lower : str -> str)
    (DocxDocument : FileStorage -> result Docx)
    (PdfReader : FileStorage -> result Reader)
    (file : FileStorage) (reader : Reader) (texts : list str) :
  endswith (lower (filename file)) (py ".pdf") = true ->
  PdfReader file = Returns reader ->
  Forall2 (fun page t => extract_text page = Returns t) (pages reader) texts ->
  exists document_text,
    extract_text_from_file lower DocxDocument PdfReader file
    = Returns document_text
    /\ (document_text = [] <-> Forall (fun t => t = []) texts)
    /\ blank document_text = forallb blank texts.
Proof.
  intros Hext Hreader Hpages.
  exists (join [LF] (filter (fun t => negb (is_empty t)) texts)).
  split.
  { unfold extract_text_from_file.
    rewrite (endswith_pdf_not_docx _ Hext), Hext, Hreader. cbn [bind].
    now rewrite (page_texts_filter _ _ Hpages). }
  split; [|now rewrite blank_join, blank_filter].
  split.
  - intros H. apply join_nil in H.
    + clear Hpages. induction texts as [|[|c t] texts IH];
        [constructor|constructor; [reflexivity|now apply IH]|discriminate].
    + apply Forall_forall. intros t Hin. apply filter_In in Hin as [_ Hin].
      now destruct t.
  - intros H. clear Hpages.
    induction H as [|t texts -> _ IH]; [reflexivity|exact IH].
Qed.

Lemma pdf_text_empty_or_blank_witness :
  let reader := {| pages := [ {| extract_text := Returns [] |};
                              {| extract_text := Returns [] |} ] |} in
  exists document_text,
    extract_text_from_file lower_ascii
      (fun _ => Raises (LibraryError (py "not a docx")))
      (fun _ => Returns reader)
      {| filename := py "scan.pdf"; stream := [37; 80; 68; 70] |}
    = Returns document_text
    /\ (document_text = [] <-> Forall (fun t : str => t = []) [[]; []])
    /\ blank document_text = forallb blank [[]; []].
Proof.
  intros reader.
  apply (pdf_text_empty_or_blank lower_ascii
           (fun _ => Raises (LibraryError (py "not a docx")))
           (fun _ => Returns reader)
           {| filename := py "scan.pdf"; stream := [37; 80; 68; 70] |}
           reader [[]; []]).
  - reflexivity.
  - reflexivity.
  - repeat constructor.
Defined.

(** ** The prompt and the provider *)

(** X10: the prompt holds the document text as it is, between a fixed head
    and a fixed tail of 4498 characters in all, so that two document texts
    with the same prompt are the same text. *)
Theorem prompt_carries_document (document_text : str) :
  contains (prompt document_text) document_text = true
  /\ length (prompt document_text) = (4498 + length document_text)%nat
  /\ (forall other, prompt other = prompt document_text ->
                    other = document_text).
Proof.
  unfold prompt. split; [apply contains_middle|]. split.
  - rewrite !length_app.
    set (head := join [LF] _). set (tail := join [LF] prompt_format).
    assert (Hh : length head = 3678%nat) by (vm_compute; reflexivity).
    assert (Ht : length tail = 820%nat) by (vm_compute; reflexivity).
    lia.
  - intros other H. apply app_inv_head in H. now apply app_inv_tail in H.
Qed.

Lemma prompt_carries_document_witness :
  py "Ui -> GWN: h(IDi)" = py "Ui -> GWN: h(IDi)".
Proof.
  apply (proj2 (proj2 (prompt_carries_document (py "Ui -> GWN: h(IDi)")))).
  reflexivity.
Defined.

Lemma analyze_raises_exception
    (genai_installed : bool)
    (generate_content : GenerateRequest -> result str) (lim : limits)
    (document_text api_key : str) (e : exn) :
  snd (analyze_document_with_gemini genai_installed generate_content lim
         document_text api_key) = Raises e ->
  exists cause,
    e = Exception
          (TextStr (py "Error analyzing document with Gemini: ") cause).
Proof.
  unfold analyze_document_with_gemini, configure_gemini.
  destruct genai_installed; cbn [snd]; intros H;
    apply reraise_exception in H as (cause & _ & ->); now exists cause.
Qed.

(** X11: when the provider library is installed,
    [analyze_document_with_gemini] makes exactly one request to the
    provider: under the key it was given, to the model gemini-2.5-flash,
    with the prompt built from the document text; when the library is
    missing it makes none.  Whatever it raises is an [Exception] whose text
    starts with "Error analyzing document with Gemini: " and goes on with
    the text of the cause, which is the missing library, what the provider
    raised on that request, or what the resolver raised on the response to
    that request. *)
Theorem analysis_failures_are_wrapped
    (genai_installed : bool)
    (generate_content : GenerateRequest -> result str) (lim : limits)
    (document_text api_key : str) :
  let run := analyze_document_with_gemini genai_installed generate_content
               lim document_text api_key in
  let sent := {| sent_api_key := api_key;
                 sent_model := py "gemini-2.5-flash";
                 sent_prompt := prompt document_text |} in
  fst run = (if genai_installed then [sent] else [])
  /\ forall e, snd run = Raises e ->
       exists cause,
         e = Exception
               (TextStr (py "Error analyzing document with Gemini: ") cause)
         /\ ((genai_installed = false
              /\ cause = Exception (Text (py
                   "Google Generative AI library not available. Please install google-generativeai package.")))
             \/ (genai_installed = true
                 /\ generate_content sent = Raises cause)
             \/ (genai_installed = true
                 /\ exists text,
                      generate_content sent = Returns text
                      /\ resolve_response lim text = Raises cause)).
Proof.
  unfold analyze_document_with_gemini, configure_gemini, gemini_call.
  destruct genai_installed; cbn [fst snd]; (split; [reflexivity|]).
  - intros e H. apply reraise_exception in H as (cause & H & ->).
    exists cause. split; [reflexivity|]. right.
    destruct (generate_content _) as [text|c] eqn:Eg; cbn [bind] in H.
    + right. split; [reflexivity|]. now exists text.
    + left. split; [reflexivity|]. now injection H as ->.
  - intros e [= <-]. eexists. split; [reflexivity|]. now left.
Qed.

Lemma analysis_failures_are_wrapped_witness :
  let sent := {| sent_api_key := py "key";
                 sent_model := py "gemini-2.5-flash";
                 sent_prompt := prompt (py "protocol text") |} in
  let generate_content := fun call =>
    if str_eqb (sent_model call) (py "gemini-2.5-flash")
    then Raises (LibraryError (py "API key not valid"))
    else Returns example_response in
  exists cause,
    Exception (TextStr (py "Error analyzing document with Gemini: ")
                 (LibraryError (py "API key not valid")))
    = Exception
        (TextStr (py "Error analyzing document with Gemini: ") cause)
    /\ ((true = false
         /\ cause = Exception (Text (py
              "Google Generative AI library not available. Please install google-generativeai package.")))
        \/ (true = true /\ generate_content sent = Raises cause)
        \/ (true = true
            /\ exists text,
                 generate_content sent = Returns text
                 /\ resolve_response example_limits text = Raises cause)).
Proof.
  intros sent generate_content.
  apply (proj2 (analysis_failures_are_wrapped true generate_content
                  example_limits (py "protocol text") (py "key"))).
  reflexivity.
Defined.
(** ** The endpoint *)

Lemma allowed_not_empty (lower : str -> str) (name : str) :
  lower [] = [] ->
  existsb (endswith (lower name)) allowed_extensions = true ->
  is_empty name = false.
Proof.
  intros Hlower. destruct name; [|reflexivity]. now rewrite Hlower.
Qed.

(** What [analyze_document] does once the request has a file, a key and an
    allowed extension. *)
Lemma analyze_document_after_gate
    (lower : str -> str)
    (DocxDocument : FileStorage -> result Docx)
    (PdfReader : FileStorage -> result Reader)
    (genai_installed : bool)
    (generate_content : GenerateRequest -> result str) (lim : limits)
    (req : request) (file : FileStorage) (api_key : str) :
  lower [] = [] ->
  files_document req = Some file ->
  form_api_key req = Some api_key ->
  existsb (endswith (lower (filename file))) allowed_extensions = true ->
  analyze_document lower DocxDocument PdfReader genai_installed
    generate_content lim req
  = match extract_text_from_file lower DocxDocument PdfReader file with
    | Raises e => (ErrorJson (TextStr [] e), 500)
    | Returns document_text =>
      if is_empty (strip document_text) then
        (ErrorJson (Text (py "Document is empty or could not be read")), 400)
      else
        match snd (analyze_document_with_gemini genai_installed
                     generate_content lim document_text api_key) with
        | Raises e => (ErrorJson (TextStr [] e), 500)
        | Returns result => (ResultJson result, 200)
        end
    end.
Proof.
  intros Hlower Hfile Hkey Hext. unfold analyze_document.
  now rewrite Hfile, Hkey, (allowed_not_empty _ _ Hlower Hext), Hext.
Qed.

Lemma extension_allowed (x : str) :
  endswith x (py ".docx") = true \/ endswith x (py ".pdf") = true
  \/ endswith x (py ".doc") = true ->
  existsb (endswith x) allowed_extensions = true.
Proof.
  unfold allowed_extensions. cbn [existsb].
  intros [->|[->| ->]]; now rewrite ?orb_true_r.
Qed.

Lemma is_empty_strip (s : str) : is_empty (strip s) = blank s.
Proof.
  destruct (blank s) eqn:E.
  - apply strip_blank in E. now rewrite E.
  - destruct (strip s) eqn:Es; [|reflexivity].
    apply strip_blank in Es. congruence.
Qed.

(** X12: once a text has been extracted from the upload of a request that
    has a key, [analyze_document] answers 400 with "Document is empty or
    could not be read" exactly when that text is blank (empty or whitespace
    only), as for a scanned PDF or a .docx of empty paragraphs. *)
Theorem blank_document_is_rejected
    (lower : str -> str)
    (DocxDocument : FileStorage -> result Docx)
    (PdfReader : FileStorage -> result Reader)
    (genai_installed : bool)
    (generate_content : GenerateRequest -> result str) (lim : limits)
    (req : request) (file : FileStorage) (api_key document_text : str) :
  lower [] = [] ->
  files_document req = Some file ->
  form_api_key req = Some api_key ->
  extract_text_from_file lower DocxDocument PdfReader file
  = Returns document_text ->
  (analyze_document lower DocxDocument PdfReader genai_installed
     generate_content lim req
   = (ErrorJson (Text (py "Document is empty or could not be read")), 400)
   <-> blank document_text = true).
Proof.
  intros Hlower Hfile Hkey Hx.
  assert (Hext : existsb (endswith (lower (filename file)))
                   allowed_extensions = true).
  { apply extension_allowed.
    destruct (extract_returns_extension _ _ _ _ _ Hx); tauto. }
  rewrite (analyze_document_after_gate _ _ _ _ _ _ _ _ _ Hlower Hfile Hkey Hext).
  rewrite Hx, is_empty_strip.
  destruct (blank document_text); [tauto|].
  split; [|discriminate].
  destruct (snd _); discriminate.
Qed.

Lemma blank_document_is_rejected_witness :
  let reader := {| pages := [ {| extract_text := Returns [] |};
                              {| extract_text := Returns [SPACE; LF] |} ] |} in
  let file := {| filename := py "scan.PDF"; stream := [37; 80; 68; 70] |} in
  analyze_document lower_ascii
    (fun _ => Raises (LibraryError (py "not a docx")))
    (fun _ => Returns reader) true (fun _ => Returns example_response) example_limits
    {| files_document := Some file; form_api_key := Some (py "key") |}
  = (ErrorJson (Text (py "Document is empty or could not be read")), 400)
  <-> blank [SPACE; LF] = true.
Proof.
  intros reader file.
  apply (blank_document_is_rejected lower_ascii
           (fun _ => Raises (LibraryError (py "not a docx")))
           (fun _ => Returns reader) true (fun _ => Returns example_response)
           example_limits
           {| files_document := Some file; form_api_key := Some (py "key") |}
           file (py "key") [SPACE; LF]); reflexivity.
Defined.

(** X13: a .doc upload passes the extension check of [analyze_document] and
    is then answered 500 with the text of the exception that says .doc files
    are not supported; neither document library nor the provider has a say
    in it. *)
Theorem doc_upload_is_answered_500
    (lower : str -> str)
    (DocxDocument : FileStorage -> result Docx)
    (PdfReader : FileStorage -> result Reader)
    (genai_installed : bool)
    (generate_content : GenerateRequest -> result str) (lim : limits)
    (req : request) (file : FileStorage) (api_key : str) :
  lower [] = [] ->
  files_document req = Some file ->
  form_api_key req = Some api_key ->
  endswith (lower (filename file)) (py ".doc") = true ->
  analyze_document lower DocxDocument PdfReader genai_installed
    generate_content lim req
  = (ErrorJson (TextStr [] (Exception (Text (py
       "Text extraction from .doc files is not directly supported. Please convert to .docx or .pdf.")))),
     500).
Proof.
  intros Hlower Hfile Hkey Hext.
  rewrite (analyze_document_after_gate _ _ _ _ _ _ _ _ _ Hlower Hfile Hkey)
    by (apply extension_allowed; tauto).
  unfold extract_text_from_file.
  destruct (endswith_doc_not_docx_pdf _ Hext) as [-> ->]. now rewrite Hext.
Qed.

Lemma doc_upload_is_answered_500_witness :
  analyze_document lower_ascii
    (fun _ => Returns {| paragraphs := [ {| text := py "A" |} ] |})
    (fun _ => Returns {| pages := [] |})
    true (fun _ => Returns example_response) example_limits
    {| files_document :=
         Some {| filename := py "old.Doc"; stream := [208; 207] |};
       form_api_key := Some (py "key") |}
  = (ErrorJson (TextStr [] (Exception (Text (py
       "Text extraction from .doc files is not directly supported. Please convert to .docx or .pdf.")))),
     500).
Proof.
  apply (doc_upload_is_answered_500 lower_ascii
           (fun _ => Returns {| paragraphs := [ {| text := py "A" |} ] |})
           (fun _ => Returns {| pages := [] |})
           true (fun _ => Returns example_response) example_limits _
           {| filename := py "old.Doc"; stream := [208; 207] |} (py "key"));
    reflexivity.
Defined.

(** X14: an upload whose lowered name ends in none of .doc, .docx and .pdf is
    answered 400 with the list of the allowed extensions, and the exception
    "Unsupported file type for text extraction." that
    [extract_text_from_file] keeps for such names never reaches a response of
    [analyze_document]. *)
Theorem unsupported_extension_is_rejected_early
    (lower : str -> str)
    (DocxDocument : FileStorage -> result Docx)
    (PdfReader : FileStorage -> result Reader)
    (genai_installed : bool)
    (generate_content : GenerateRequest -> result str) (lim : limits)
    (req : request) :
  (forall file api_key,
     files_document req = Some file ->
     form_api_key req = Some api_key ->
     filename file <> [] ->
     existsb (endswith (lower (filename file))) allowed_extensions = false ->
     analyze_document lower DocxDocument PdfReader genai_installed
       generate_content lim req
     = (ErrorJson (Text (py
          "Unsupported file type. Only .doc, .docx, .pdf files are allowed.")),
        400))
  /\ analyze_document lower DocxDocument PdfReader genai_installed
       generate_content lim req
     <> (ErrorJson (TextStr [] (Exception (Text (py
           "Unsupported file type for text extraction.")))), 500).
Proof.
  split.
  - intros file api_key Hfile Hkey Hname Hext. unfold analyze_document.
    rewrite Hfile, Hkey, Hext. now destruct (filename file).
  - unfold analyze_document.
    destruct (files_document req) as [file|]; [|discriminate].
    destruct (form_api_key req) as [api_key|]; [|discriminate].
    destruct (is_empty (filename file)); [discriminate|].
    destruct (existsb _ allowed_extensions) eqn:Hext; [|discriminate].
    cbn [negb]. unfold extract_text_from_file.
    unfold allowed_extensions in Hext. cbn [existsb] in Hext.
    destruct (endswith _ (py ".docx")).
    { destruct (reraise _ _) as [t|e] eqn:E.
      - destruct (is_empty (strip t)); [discriminate|].
        destruct (snd _) as [v|e] eqn:Ea; [discriminate|].
        destruct (analyze_raises_exception _ _ _ _ _ _ Ea) as (cause & ->).
        discriminate.
      - apply reraise_exception in E as (c & _ & ->). discriminate. }
    destruct (endswith _ (py ".pdf")).
    { destruct (reraise _ _) as [t|e] eqn:E.
      - destruct (is_empty (strip t)); [discriminate|].
        destruct (snd _) as [v|e] eqn:Ea; [discriminate|].
        destruct (analyze_raises_exception _ _ _ _ _ _ Ea) as (cause & ->).
        discriminate.
      - apply reraise_exception in E as (c & _ & ->). discriminate. }
    destruct (endswith _ (py ".doc")); [|discriminate Hext].
    intros H. injection H as H. vm_compute in H. discriminate H.
Qed.

Lemma unsupported_extension_is_rejected_early_witness :
  analyze_document lower_ascii
    (fun _ => Returns {| paragraphs := [] |})
    (fun _ => Returns {| pages := [] |})
    true (fun _ => Returns example_response) example_limits
    {| files_document :=
         Some {| filename := py "notes.txt"; stream := [104; 105] |};
       form_api_key := Some (py "key") |}
  = (ErrorJson (Text (py
       "Unsupported file type. Only .doc, .docx, .pdf files are allowed.")),
     400).
Proof.
  apply (proj1 (unsupported_extension_is_rejected_early lower_ascii
                  (fun _ => Returns {| paragraphs := [] |})
                  (fun _ => Returns {| pages := [] |})
                  true (fun _ => Returns example_response) example_limits _)
           {| filename := py "notes.txt"; stream := [104; 105] |} (py "key"));
    try reflexivity.
  discriminate.
Defined.

(** X16: an answer with status 400 does not depend on the provider: the
    request is answered the same way whether or not the provider library is
    installed, whatever the provider would respond and whatever the limits
    of the interpreter. *)
Theorem bad_request_is_settled_before_the_provider
    (lower : str -> str)
    (DocxDocument : FileStorage -> result Docx)
    (PdfReader : FileStorage -> result Reader)
    (genai_installed genai_installed' : bool)
    (generate_content generate_content' : GenerateRequest -> result str)
    (lim lim' : limits) (req : request) :
  snd (analyze_document lower DocxDocument PdfReader genai_installed
         generate_content lim req) = 400 ->
  analyze_document lower DocxDocument PdfReader genai_installed'
    generate_content' lim' req
  = analyze_document lower DocxDocument PdfReader genai_installed
      generate_content lim req.
Proof.
  unfold analyze_document.
  destruct (files_document req) as [file|]; [|reflexivity].
  destruct (form_api_key req) as [api_key|]; [|reflexivity].
  destruct (is_empty (filename file)); [reflexivity|].
  destruct (negb _); [reflexivity|].
  destruct (extract_text_from_file _ _ _ file) as [t|e]; [|reflexivity].
  destruct (is_empty (strip t)); [reflexivity|].
  destruct (snd (analyze_document_with_gemini genai_installed
                   generate_content lim t api_key)); discriminate.
Qed.

Lemma bad_request_is_settled_before_the_provider_witness :
  analyze_document lower_ascii
    (fun _ => Returns {| paragraphs := [] |})
    (fun _ => Returns {| pages := [] |})
    false (fun _ => Raises (LibraryError (py "quota exceeded")))
    {| max_nesting := 10; int_max_str_digits := 0 |}
    {| files_document := None; form_api_key := Some (py "key") |}
  = analyze_document lower_ascii
      (fun _ => Returns {| paragraphs := [] |})
      (fun _ => Returns {| pages := [] |})
      true (fun _ => Returns example_response) example_limits
      {| files_document := None; form_api_key := Some (py "key") |}.
Proof.
  apply (bad_request_is_settled_before_the_provider lower_ascii
           (fun _ => Returns {| paragraphs := [] |})
           (fun _ => Returns {| pages := [] |})
           true false (fun _ => Returns example_response)
           (fun _ => Raises (LibraryError (py "quota exceeded")))
           example_limits {| max_nesting := 10; int_max_str_digits := 0 |}).
  reflexivity.
Defined.


